(** * skani-vMAG: the similarity-table pipeline

    A shallow embedding of the [vskani] package (and of the older scripts
    under [python/]): the edge-weight preprocessor, the loader of the
    clustering output, the cluster summarizer, the concatenation of the
    per-mode result files, the validation of the thresholds and the
    orchestration of the sub-commands.

    Conventions.
    - Percentages and weights are Python floats in the source; here they are
      exact rationals [Q], compared with [Qle_bool] and identified up to
      [Qeq].  No rounding, NaN or null cell is modelled there.
    - Where rounding decides what the code does, at the rescaling of the
      thresholds, [Binary64] models the same code on IEEE 754 binary64
      numbers, the floats of the interpreter.
    - A [polars] data frame whose schema is known is a list of records; the
      untyped frame that [read_csv] returns is kept where the column names
      matter.
    - Python exceptions are the [Err] side of [result]. *)

From Stdlib Require Import PrimFloat.
From Stdlib Require FloatOps SpecFloat.
From Stdlib Require Import Ascii QArith Qminmax Lqa.
From stdpp Require Import gmap strings list sorting.

Local Open Scope string_scope.
Local Open Scope list_scope.

#[local] Set Warnings "-inexact-float".

(** ** Exceptions *)

Inductive exn : Type :=
| ValueError (name : string)          (* check_range *)
| RuntimeError (msg : string)         (* missing input, missing skani *)
| AttributeError (attr : string)      (* attribute of a namespace or of None *)
| FileNotFoundError (what : string)   (* open / subprocess on a missing file *)
| NoDataError                         (* read_csv of an empty file *)
| ColumnNotFoundError (col : string)  (* polars: unknown column *)
| SchemaError (col : string).         (* polars: wrong cell type *)

Inductive result (A : Type) : Type :=
| Ok (a : A)
| Err (e : exn).
Arguments Ok {A} a.
Arguments Err {A} e.

#[global] Instance result_ret : MRet result := fun A a => Ok a.
#[global] Instance result_bind : MBind result := fun A B k r =>
  match r with
  | Ok a => k a
  | Err e => Err e
  end.

Definition is_ok {A} (r : result A) : bool :=
  match r with Ok _ => true | Err _ => false end.

(** ** The similarity table *)

(** The columns of the table written by [skani dist] that the package reads. *)
Record SkaniRow : Type := mkSkaniRow {
  Ref_name : string;
  Query_name : string;
  ANI : Q;
  Align_fraction_ref : Q;
  Align_fraction_query : Q
}.

(** A row after [_create_edge_weights]: the two columns [AF] and [weight]
    are appended by [with_columns]. *)
Record WeightedRow : Type := mkWeightedRow {
  base : SkaniRow;
  AF : Q;
  weight : Q
}.

(** ** vskani/skani/preprocess.py *)

Module SkaniPreprocessor.

Definition filter_self_comparisons (r : SkaniRow) : bool :=
  negb (String.eqb (Ref_name r) (Query_name r)).

Definition filter_min_ani (min_ani : Q) (r : SkaniRow) : bool :=
  Qle_bool min_ani (ANI r).

Definition filter_min_af (min_af : Q) (r : SkaniRow) : bool :=
  Qle_bool min_af (Align_fraction_ref r)
  || Qle_bool min_af (Align_fraction_query r).

Definition _preprocess (min_ani min_af : Q) (data : list SkaniRow)
  : list SkaniRow :=
  List.filter
    (fun r => filter_self_comparisons r
              && filter_min_ani min_ani r
              && filter_min_af min_af r)
    data.

Definition directional_min_af (r : SkaniRow) : Q :=
  Qmin (Align_fraction_query r) (Align_fraction_ref r).

Definition scale : Q := inject_Z (100 ^ 2).

Definition edge_weights (af : Q) (r : SkaniRow) : Q :=
  (af * ANI r / scale)%Q.

Definition _create_edge_weights (data : list SkaniRow) : list WeightedRow :=
  List.map
    (fun r =>
       let af := directional_min_af r in
       {| base := r; AF := af; weight := edge_weights af r |})
    data.

Definition process (min_ani min_af : Q) (data : list SkaniRow)
  : list WeightedRow :=
  _create_edge_weights (_preprocess min_ani min_af data).

(** [save] selects the three columns of the edge list. *)
Definition save (data : list WeightedRow) : list (string * string * Q) :=
  List.map
    (fun w => (Ref_name (base w), Query_name (base w), weight w))
    data.

End SkaniPreprocessor.

(** ** vskani/skani/_cli.py: validation of the thresholds *)

Module SkaniCli.

Definition check_range (value : Q) (range : Q * Q) (name : string)
  : result unit :=
  let '(minval, maxval) := range in
  if negb (Qle_bool minval value && Qle_bool value maxval)
  then Err (ValueError name)
  else Ok tt.

Record PreprocessingArgs : Type := mkPreprocessingArgs {
  min_ani : Q;
  min_cov : Q
}.

(** The dataclass constructor followed by [__post_init__]: both fields are
    checked against [(0.0, 1.0)], then rescaled in place. *)
Definition PreprocessingArgs_init (min_ani0 min_cov0 : Q)
  : result PreprocessingArgs :=
  let valrange := (0%Q, 1%Q) in
  check_range min_ani0 valrange "--min-ani";;
  check_range min_cov0 valrange "--min-cov";;
  mret {| min_ani := (min_ani0 * 100)%Q; min_cov := (min_cov0 * 100)%Q |}.

End SkaniCli.

(** ** python/preprocess.py: the stand-alone script *)

Module Legacy.

Definition check_range (value min_ max_ : Q) (name : string) : result unit :=
  if negb (Qle_bool min_ value && Qle_bool value max_)
  then Err (ValueError name)
  else Ok tt.

Record Args : Type := mkArgs {
  min_ani : Q;
  min_cov : Q
}.

(** The part of [parse_args] that follows [parser.parse_args()]. *)
Definition parse_args (cli_min_ani cli_min_cov : Q) : result Args :=
  check_range cli_min_ani 0 1 "--min-ani";;
  check_range cli_min_cov 0 1 "--min-cov";;
  mret {| min_ani := (cli_min_ani * 100)%Q;
          min_cov := (cli_min_cov * 100)%Q |}.

(** The filter of [main]. *)
Definition main_filter (args : Args) (data : list SkaniRow) : list SkaniRow :=
  List.filter
    (fun r =>
       negb (String.eqb (Ref_name r) (Query_name r))
       && Qle_bool (min_ani args) (ANI r)
       && (Qle_bool (min_cov args) (Align_fraction_ref r)
           || Qle_bool (min_cov args) (Align_fraction_query r)))
    data.

(** The [MCL] column of [main]: this script divides by 100 only. *)
Definition main_weight (r : SkaniRow) : Q :=
  (Qmin (Align_fraction_query r) (Align_fraction_ref r) * ANI r / 100)%Q.

End Legacy.

(** ** python/_preprocess.py: the first version of the script *)

Module LegacyMax.

(** [main] up to the write: self comparisons are dropped, no threshold is
    applied, and [AF] is the larger of the two aligned fractions. *)
Definition main_filter (data : list SkaniRow) : list SkaniRow :=
  List.filter
    (fun r => negb (String.eqb (Ref_name r) (Query_name r)))
    data.

Definition main_AF (r : SkaniRow) : Q :=
  Qmax (Align_fraction_query r) (Align_fraction_ref r).

Definition main_weight (r : SkaniRow) : Q :=
  (main_AF r * ANI r / 100)%Q.

Definition main (data : list SkaniRow) : list (string * string * Q) :=
  List.map
    (fun r => (Ref_name r, Query_name r, main_weight r))
    (main_filter data).

End LegacyMax.

(** ** The thresholds in double precision

    The rescaling [self.min_ani *= 100.0] and the comparisons of the filter
    are operations on doubles.  This module repeats [check_range],
    [PreprocessingArgs], the argument check of [python/preprocess.py] and
    the filter of [_preprocess] on binary64 numbers, with the
    multiplication and the comparison of the processor.  The rows hold
    numbers, as [skani dist] writes them. *)

Module Binary64.

Module SkaniCli.

Definition check_range (value : float) (range : float * float) (name : string)
  : result unit :=
  let '(minval, maxval) := range in
  if negb (PrimFloat.leb minval value && PrimFloat.leb value maxval)
  then Err (ValueError name)
  else Ok tt.

Record PreprocessingArgs : Type := mkPreprocessingArgs {
  min_ani : float;
  min_cov : float
}.

(** The dataclass constructor followed by [__post_init__]. *)
Definition PreprocessingArgs_init (min_ani0 min_cov0 : float)
  : result PreprocessingArgs :=
  let valrange := (0%float, 1%float) in
  check_range min_ani0 valrange "--min-ani";;
  check_range min_cov0 valrange "--min-cov";;
  mret {| min_ani := PrimFloat.mul min_ani0 100;
          min_cov := PrimFloat.mul min_cov0 100 |}.

End SkaniCli.

Module Legacy.

Definition check_range (value min_ max_ : float) (name : string)
  : result unit :=
  if negb (PrimFloat.leb min_ value && PrimFloat.leb value max_)
  then Err (ValueError name)
  else Ok tt.

Record Args : Type := mkArgs {
  min_ani : float;
  min_cov : float
}.

(** The part of [parse_args] that follows [parser.parse_args()]; the
    integer [100] is converted to [100.0] before the product. *)
Definition parse_args (cli_min_ani cli_min_cov : float) : result Args :=
  check_range cli_min_ani 0 1 "--min-ani";;
  check_range cli_min_cov 0 1 "--min-cov";;
  mret {| min_ani := PrimFloat.mul cli_min_ani 100;
          min_cov := PrimFloat.mul cli_min_cov 100 |}.

End Legacy.

(** The columns of the table that the filter reads. *)
Record SkaniRow : Type := mkSkaniRow {
  Ref_name : string;
  Query_name : string;
  ANI : float;
  Align_fraction_ref : float;
  Align_fraction_query : float
}.

Module SkaniPreprocessor.

Definition filter_self_comparisons (r : SkaniRow) : bool :=
  negb (String.eqb (Ref_name r) (Query_name r)).

Definition filter_min_ani (min_ani : float) (r : SkaniRow) : bool :=
  PrimFloat.leb min_ani (ANI r).

Definition filter_min_af (min_af : float) (r : SkaniRow) : bool :=
  PrimFloat.leb min_af (Align_fraction_ref r)
  || PrimFloat.leb min_af (Align_fraction_query r).

Definition _preprocess (min_ani min_af : float) (data : list SkaniRow)
  : list SkaniRow :=
  List.filter
    (fun r => filter_self_comparisons r
              && filter_min_ani min_ani r
              && filter_min_af min_af r)
    data.

End SkaniPreprocessor.

End Binary64.

(** ** Text lines: [str.rstrip] and [str.split] *)

(** [str.isspace] on the code points below 256. *)
Definition is_space (c : ascii) : bool :=
  let n := nat_of_ascii c in
  ((9 <=? n)%nat && (n <=? 13)%nat)
  || ((28 <=? n)%nat && (n <=? 32)%nat)
  || (n =? 133)%nat || (n =? 160)%nat.

Fixpoint rstrip (s : string) : string :=
  match s with
  | EmptyString => EmptyString
  | String c s' =>
      match rstrip s' with
      | EmptyString => if is_space c then EmptyString else String c EmptyString
      | t => String c t
      end
  end.

Definition tab : ascii := ascii_of_nat 9.
Definition newline : ascii := ascii_of_nat 10.

(** [s.split("\t")]: never empty, the empty string gives one empty field. *)
Fixpoint split_tab (s : string) : list string :=
  match s with
  | EmptyString => [EmptyString]
  | String c s' =>
      if Ascii.eqb c tab then EmptyString :: split_tab s'
      else match split_tab s' with
           | field :: fields => String c field :: fields
           | [] => [String c EmptyString]
           end
  end.

(** ** vskani/mcl/utils.py *)

Module MclUtils.

(** The clusters file is the list of its lines, each with its terminator. *)
Definition iload (file : list string) (min_cluster_size : Z)
  : list (list string) :=
  List.filter
    (fun cluster => (min_cluster_size <=? Z.of_nat (length cluster))%Z)
    (List.map (fun line => split_tab (rstrip line)) file).

Definition load (file : list string) (min_cluster_size : Z)
  : list (list string) :=
  iload file min_cluster_size.

(** [enumerate]. *)
Definition enumerate {A} (l : list A) : list (nat * A) :=
  imap (fun i x => (i, x)) l.

(** The dictionary comprehension: a later assignment to a key replaces the
    earlier one. *)
Definition assign_members (d : gmap string nat) (ic : nat * list string)
  : gmap string nat :=
  foldl (fun d member => <[member := ic.1]> d) d ic.2.

Definition member2cluster_of (clusters : list (list string))
  : gmap string nat :=
  foldl assign_members ∅ (enumerate clusters).

Definition _map_members_to_cluster_ids
    (clusters_file : list string) (min_cluster_size : Z)
  : gmap string nat :=
  member2cluster_of (iload clusters_file min_cluster_size).

End MclUtils.

(** ** Untyped frames: what [polars.read_csv] returns *)

Inductive cell : Type :=
| CStr (s : string)
| CNum (q : Q).

(** A tab-separated file as polars sees it: one list of cells per line. *)
Definition table : Type := list (list cell).

Record DataFrame : Type := mkDataFrame {
  columns : list cell;
  rows : list (list cell)
}.

Module Polars.

(** With the default [has_header=True] the first line names the columns,
    whatever it holds. *)
Definition read_csv (file : table) : result DataFrame :=
  match file with
  | [] => Err NoDataError
  | header :: body => Ok {| columns := header; rows := body |}
  end.

Definition is_column (name : string) (c : cell) : bool :=
  match c with
  | CStr s => String.eqb s name
  | CNum _ => false
  end.

Fixpoint index_of (name : string) (cols : list cell) : option nat :=
  match cols with
  | [] => None
  | c :: cols' =>
      if is_column name c then Some O
      else S <$> index_of name cols'
  end.

Definition column_index (name : string) (cols : list cell) : result nat :=
  match index_of name cols with
  | Some i => Ok i
  | None => Err (ColumnNotFoundError name)
  end.

Definition get_str (col : string) (i : nat) (row : list cell)
  : result string :=
  match row !! i with
  | Some (CStr s) => Ok s
  | _ => Err (SchemaError col)
  end.

Definition get_num (col : string) (i : nat) (row : list cell) : result Q :=
  match row !! i with
  | Some (CNum q) => Ok q
  | _ => Err (SchemaError col)
  end.

Fixpoint traverse {A B} (f : A -> result B) (l : list A) : result (list B) :=
  match l with
  | [] => Ok []
  | x :: l' => y ← f x; ys ← traverse f l'; mret (y :: ys)
  end.

(** The five columns the preprocessor names, as typed rows. *)
Definition as_skani_rows (df : DataFrame) : result (list SkaniRow) :=
  i_ref ← column_index "Ref_name" (columns df);
  i_query ← column_index "Query_name" (columns df);
  i_ani ← column_index "ANI" (columns df);
  i_afr ← column_index "Align_fraction_ref" (columns df);
  i_afq ← column_index "Align_fraction_query" (columns df);
  traverse
    (fun row =>
       r ← get_str "Ref_name" i_ref row;
       q ← get_str "Query_name" i_query row;
       a ← get_num "ANI" i_ani row;
       fr ← get_num "Align_fraction_ref" i_afr row;
       fq ← get_num "Align_fraction_query" i_afq row;
       mret (mkSkaniRow r q a fr fq))
    (rows df).

(** [write_csv(has_header=False)] of the three selected columns. *)
Definition write_edges (edges : list (string * string * Q)) : table :=
  List.map (fun e => [CStr e.1.1; CStr e.1.2; CNum e.2]) edges.

(** [write_csv] of the summary, with its header. *)
Definition write_summary (summary : list (nat * Q)) : table :=
  [CStr "cluster"; CStr "avg_ANI"]
    :: List.map (fun s => [CNum (inject_Z (Z.of_nat s.1)); CNum s.2]) summary.

End Polars.

(** ** vskani/mcl/utils.py: the summarizer *)

Module ClusterSummarizer.

Import MclUtils Polars.

(** A row of [ani_data] after [_merge_cluster_ids]: the cells read from
    the file and the two joined columns. *)
Record JoinedRow : Type := mkJoinedRow {
  cells : list cell;
  Ref_cluster : nat;
  Query_cluster : nat
}.

Record t : Type := mkSummarizer {
  ani_columns : list cell;
  ani_data : list JoinedRow
}.

(** Inner join of [left] with the two-column frame [clusters] on the name
    that [key] reads from a left row. *)
Definition join {A} (key : A -> result string) (left : list A)
    (clusters : list (string * nat)) : result (list (A * nat)) :=
  matched ← traverse
    (fun r =>
       k ← key r;
       mret (List.map (fun nc => (r, nc.2))
               (List.filter (fun nc => String.eqb nc.1 k) clusters)))
    left;
  mret (concat matched).

Definition _merge_cluster_ids (df : DataFrame) (clusters_file : list string)
    (min_cluster_size : Z) : result t :=
  let records :=
    map_to_list (_map_members_to_cluster_ids clusters_file min_cluster_size) in
  i_ref ← column_index "Ref_name" (columns df);
  by_ref ← join (get_str "Ref_name" i_ref) (rows df) records;
  i_query ← column_index "Query_name" (columns df);
  by_query ← join (fun rc => get_str "Query_name" i_query rc.1) by_ref records;
  mret {| ani_columns := columns df;
          ani_data :=
            List.filter
              (fun j => Nat.eqb (Ref_cluster j) (Query_cluster j))
              (List.map (fun x => mkJoinedRow x.1.1 x.1.2 x.2) by_query) |}.

(** [__init__] with the default [min_cluster_size]. *)
Definition init (skani_file : table) (clusters_file : list string)
  : result t :=
  df ← read_csv skani_file;
  _merge_cluster_ids df clusters_file 2.

Definition Qsum (xs : list Q) : Q := foldr Qplus 0%Q xs.

Definition mean (xs : list Q) : Q :=
  (Qsum xs / inject_Z (Z.of_nat (length xs)))%Q.

Definition group (k : nat) (data : list (nat * Q)) : list Q :=
  List.map snd (List.filter (fun p => Nat.eqb p.1 k) data).

(** [groupby("Ref_cluster").agg(mean)]: one row per distinct key. *)
Definition groupby_mean (data : list (nat * Q)) : list (nat * Q) :=
  List.map (fun k => (k, mean (group k data)))
    (remove_dups (List.map fst data)).

Definition avg_le (a b : nat * Q) : Prop := Is_true (Qle_bool a.2 b.2).

#[global] Instance avg_le_dec a b : Decision (avg_le a b).
Proof. unfold avg_le. apply _. Defined.

Definition sort_by_avg (l : list (nat * Q)) : list (nat * Q) :=
  merge_sort avg_le l.

Definition average_ANI_per_cluster (s : t) : result (list (nat * Q)) :=
  i_ani ← column_index "ANI" (ani_columns s);
  data ← traverse
    (fun j => a ← get_num "ANI" i_ani (cells j); mret (Ref_cluster j, a))
    (ani_data s);
  mret (sort_by_avg (groupby_mean data)).

Definition summarize_and_save (s : t) : result table :=
  summary ← average_ANI_per_cluster s;
  mret (write_summary summary).

End ClusterSummarizer.

(** ** vskani/skani/vskani.py: concatenation of the result files *)

Module Concat.

(** What is left of a binary stream after one [readline()]: the bytes
    after the first newline, nothing if there is none. *)
Fixpoint after_readline (fsrc : list ascii) : list ascii :=
  match fsrc with
  | [] => []
  | c :: rest => if Ascii.eqb c newline then rest else after_readline rest
  end.

(** The loop over [enumerate(results)], from index [i], appending to
    [fdst]. *)
Fixpoint copy_results (i : nat) (results : list (list ascii))
    (fdst : list ascii) : list ascii :=
  match results with
  | [] => fdst
  | fsrc :: results' =>
      let kept := if negb (Nat.eqb i 0) then after_readline fsrc else fsrc in
      copy_results (S i) results' (fdst ++ kept)
  end.

Definition concatenate (results : list (list ascii)) : list ascii :=
  copy_results 0 results [].

(** The same loop on files already cut into lines. *)
Fixpoint copy_lines {A} (i : nat) (results : list (list A)) (fdst : list A)
  : list A :=
  match results with
  | [] => fdst
  | fsrc :: results' =>
      let kept := if negb (Nat.eqb i 0) then tail fsrc else fsrc in
      copy_lines (S i) results' (fdst ++ kept)
  end.

Definition concatenate_lines {A} (results : list (list A)) : list A :=
  copy_lines 0 results [].

(** Lines as a text reader yields them: each ends with its newline, but
    for a last line that has none. *)
Fixpoint lines_from (cur : list ascii) (s : list ascii)
  : list (list ascii) :=
  match s with
  | [] => match cur with [] => [] | _ => [cur] end
  | c :: rest =>
      if Ascii.eqb c newline then (cur ++ [c]) :: lines_from [] rest
      else lines_from (cur ++ [c]) rest
  end.

Definition lines_of (s : list ascii) : list (list ascii) := lines_from [] s.

Definition line_count (s : list ascii) : nat := length (lines_of s).

(** A file written line by line, every line terminated. *)
Definition unlines (ls : list (list ascii)) : list ascii :=
  concat (List.map (fun l => l ++ [newline]) ls).

Definition no_newline (l : list ascii) : Prop := newline ∉ l.

End Concat.

(** ** The world the orchestration runs in *)

(** One word of a command line. *)
Inductive arg : Type :=
| AStr (s : string)
| AInt (z : Z)
| ANum (q : Q).

(** The file system maps absolute paths to tab-separated files; [on_path]
    lists the executables [which] finds; [commands] records every external
    process that was started, oldest first. *)
Record world : Type := mkWorld {
  fs : gmap string table;
  cwd : string;
  on_path : list string;
  commands : list (list arg)
}.

(** What the package leaves to its collaborators: the effect of an external
    process on the files, directory listing, [Path.with_suffix], and the text
    of a number in a file. *)
Record externals : Type := mkExternals {
  tool : string -> list arg -> gmap string table -> gmap string table;
  glob : string -> string -> gmap string table -> list string;
  with_suffix : string -> string -> string;
  float_text : Q -> string
}.

Definition prog (A : Type) : Type := world -> result A * world.

#[global] Instance prog_ret : MRet prog := fun A a w => (Ok a, w).
#[global] Instance prog_bind : MBind prog := fun A B k m w =>
  match m w with
  | (Ok a, w') => k a w'
  | (Err e, w') => (Err e, w')
  end.

Definition raise {A} (e : exn) : prog A := fun w => (Err e, w).

Definition lift {A} (r : result A) : prog A := fun w => (r, w).

Definition is_absolute (p : string) : bool :=
  match p with
  | String c _ => Ascii.eqb c (ascii_of_nat 47)
  | EmptyString => false
  end.

(** [Path.joinpath]. *)
Definition joinpath (dir p : string) : string :=
  if is_absolute p then p else dir +:+ "/" +:+ p.

Definition open_read (p : string) : prog table := fun w =>
  match fs w !! joinpath (cwd w) p with
  | Some t => (Ok t, w)
  | None => (Err (FileNotFoundError p), w)
  end.

Definition write_file (p : string) (t : table) : prog unit := fun w =>
  (Ok tt, {| fs := <[joinpath (cwd w) p := t]> (fs w); cwd := cwd w;
             on_path := on_path w; commands := commands w |}).

Definition append_file (p : string) (t : table) : prog unit := fun w =>
  let old := default [] (fs w !! joinpath (cwd w) p) in
  (Ok tt, {| fs := <[joinpath (cwd w) p := old ++ t]> (fs w); cwd := cwd w;
             on_path := on_path w; commands := commands w |}).

Definition remove (p : string) : prog unit := fun w =>
  match fs w !! joinpath (cwd w) p with
  | Some _ =>
      (Ok tt, {| fs := delete (joinpath (cwd w) p) (fs w); cwd := cwd w;
                 on_path := on_path w; commands := commands w |})
  | None => (Err (FileNotFoundError p), w)
  end.

(** [shutil.which(name) is not None]. *)
Definition which (name : string) : prog bool := fun w =>
  (Ok (bool_decide (name ∈ on_path w)), w).

(** [subprocess.run(argv)]: starting a program that is not on the path
    raises; otherwise the process runs and its exit status is ignored. *)
Definition subprocess_run (E : externals) (exe : string) (args : list arg)
  : prog unit := fun w =>
  if bool_decide (exe ∈ on_path w) then
    (Ok tt, {| fs := tool E (cwd w) (AStr exe :: args) (fs w); cwd := cwd w;
               on_path := on_path w;
               commands := commands w ++ [AStr exe :: args] |})
  else (Err (FileNotFoundError exe), w).

Definition cell_text (E : externals) (c : cell) : string :=
  match c with
  | CStr s => s
  | CNum q => float_text E q
  end.

Fixpoint join_tab (fields : list string) : string :=
  match fields with
  | [] => EmptyString
  | [f] => f
  | f :: fields' => f +:+ String tab (join_tab fields')
  end.

(** A line of a file as a text reader returns it. *)
Definition line_text (E : externals) (line : list cell) : string :=
  join_tab (List.map (cell_text E) line) +:+ String newline EmptyString.

(** ** vskani/skani/vskani.py: the similarity runner *)

Module VSkani.

Section WithExternals.
Context (E : externals).

(** Logging is not modelled. *)
Definition run_and_log_command (exe : string) (args : list arg)
    (logfile : string) : prog unit :=
  subprocess_run E exe args.

Definition glob_all_vmags (vmag_dir ext : string) : prog (list string) :=
  fun w => (Ok (glob E vmag_dir ("*" +:+ ext) (fs w)), w).

Definition sketch (vmag_dir outdir ext : string) (cmp marker threads : Z)
    (logfile : string) : prog unit :=
  let vMAGs := joinpath outdir "vMAGs_filenames.txt" in
  names ← glob_all_vmags vmag_dir ext;
  write_file vMAGs (List.map (fun n => [CStr n]) names);;
  let sketchdir := joinpath outdir "vMAGs_sketches" in
  run_and_log_command "skani"
    [AStr "sketch"; AStr "-c"; AInt cmp; AStr "-m"; AInt marker;
     AStr "-t"; AInt threads; AStr "-o"; AStr sketchdir;
     AStr "-l"; AStr vMAGs]
    logfile;;
  let sketchfile := joinpath outdir "vMAGs_sketches.txt" in
  sketches ← (fun w => (Ok (glob E sketchdir "*.sketch" (fs w)), w));
  write_file sketchfile (List.map (fun n => [CStr n]) sketches).

Definition skani (contigfile vmag_dir : option string) (outdir : string)
    (cmp marker : Z) (screen min_af : Q) (threads : Z) (logfile : string)
  : prog string :=
  let contig_text := default "None" contigfile in
  let '(ref, query, output) :=
    match vmag_dir with
    | Some _ =>
        let sketchfile := joinpath outdir "vMAGs_sketches.txt" in
        match contigfile with
        | Some _ =>
            ([AStr "--rl"; AStr sketchfile], [AStr "--qi"; AStr contig_text],
             "unbinned-vMAGs_skani_ANI.tsv")
        | None =>
            ([AStr "--rl"; AStr sketchfile], [AStr "--ql"; AStr sketchfile],
             "vMAGs-vMAGs_skani_ANI.tsv")
        end
    | None =>
        ([AStr "--ri"; AStr contig_text], [AStr "--qi"; AStr contig_text],
         "unbinned-unbinned_skani_ANI.tsv")
    end in
  let output := joinpath outdir output in
  run_and_log_command "skani"
    ([AStr "dist"] ++ ref ++ query ++ [AStr "-o"; AStr output]
     ++ [AStr "-c"; AInt cmp; AStr "-m"; AInt marker; AStr "-s"; ANum screen;
         AStr "--min-af"; ANum min_af; AStr "-t"; AInt threads])
    logfile;;
  mret output.

(** The final loop of [main], on files cut into lines: the header of every
    result but the first is skipped, then the result is removed. *)
Fixpoint copy_files (i : nat) (results : list string) (fdst : string)
  : prog unit :=
  match results with
  | [] => mret tt
  | result :: results' =>
      fsrc ← open_read result;
      append_file fdst (if negb (Nat.eqb i 0) then tail fsrc else fsrc);;
      remove result;;
      copy_files (S i) results' fdst
  end.

(** [outdir.mkdir] and [logging.basicConfig], which precede the two checks,
    touch only the output directory and the command log, neither of which
    is part of [world]. *)
Definition main (contigfile vmag_dir : option string) (output outdir : string)
    (ext : string) (cmp marker : Z) (screen min_af : Q) (threads : Z)
    (command_log log : string) : prog unit :=
  if bool_decide (contigfile = None) && bool_decide (vmag_dir = None) then
    raise (RuntimeError
             "At least one of -c and -d flags need to be supplied for input genomes to query.")
  else
    found ← which "skani";
    if negb found then
      raise (RuntimeError
               "Cannot find path to `skani`. Make sure `skani` is installed and in $PATH.")
    else
      let skani_runner c v :=
        skani c v outdir cmp marker screen min_af threads log in
      results ← mret [];
      results ← match vmag_dir with
                | Some d =>
                    sketch d outdir ext cmp marker threads log;;
                    result ← skani_runner None vmag_dir;
                    mret (results ++ [result])
                | None => mret results
                end;
      results ← match contigfile with
                | Some _ =>
                    result ← skani_runner contigfile None;
                    mret (results ++ [result])
                | None => mret results
                end;
      results ← match contigfile, vmag_dir with
                | Some _, Some _ =>
                    result ← skani_runner contigfile vmag_dir;
                    mret (results ++ [result])
                | _, _ => mret results
                end;
      write_file (joinpath outdir output) [];;
      copy_files 0 results (joinpath outdir output).

End WithExternals.

End VSkani.

(** ** vskani/mcl/__init__.py: the clustering runner *)

Module Mcl.

Section WithExternals.
Context (E : externals).

Definition mcxload (file tabfile matfile : string) : prog unit :=
  subprocess_run E "mcxload"
    [AStr "-abc"; AStr file; AStr "-write-tab"; AStr tabfile;
     AStr "-o"; AStr matfile].

Definition mcl (tabfile matfile output : string) (inflation : Q)
  : prog unit :=
  subprocess_run E "mcl"
    [AStr matfile; AStr "-use-tab"; AStr tabfile; AStr "-I"; ANum inflation;
     AStr "-o"; AStr output].

Definition run (file tabfile matfile output : string) (inflation : Q)
  : prog unit :=
  mcxload file tabfile matfile;;
  mcl tabfile matfile output inflation.

End WithExternals.

End Mcl.

(** ** The argparse namespace *)

Inductive command : Type := cmd_skani | cmd_mcl | cmd_all | cmd_summarize.

#[global] Instance command_eq_dec : EqDecision command.
Proof. solve_decision. Defined.

(** An attribute that the chosen sub-command did not declare is [None];
    reading it raises [AttributeError].  [contigs] and [vmag_dir] have no
    default, so they may be present and hold Python's [None]. *)
Module Namespace.
Record t : Type := mk {
  command : option command;
  contigs : option (option string);
  vmag_dir : option (option string);
  ext : option string;
  outdir : option string;
  output : option string;
  compression_factor : option Z;
  marker : option Z;
  screen : option Q;
  min_af : option Q;
  threads : option Z;
  command_log : option string;
  log : option string;
  output_processed : option string;
  min_ani : option Q;
  min_cov : option Q;
  input : option string;
  mcl_output : option string;
  inflation : option Q;
  summary_output : option string
}.
End Namespace.

Definition getattr {A} (name : string) (a : option A) : result A :=
  match a with
  | Some x => Ok x
  | None => Err (AttributeError name)
  end.

(** [try: ... except AttributeError: return None]. *)
Definition except_AttributeError {A} (r : result A) : result (option A) :=
  match r with
  | Ok a => Ok (Some a)
  | Err (AttributeError _) => Ok None
  | Err e => Err e
  end.

(** ** vskani/skani/_cli.py: the argument records *)

Module VSkaniArgs.

Record IOArgs : Type := mkIOArgs {
  contigs : option string;
  vmag_dir : option string;
  outdir : string;
  skani_output : string;
  processed_output : string;
  ext : string
}.

Record LogArgs : Type := mkLogArgs {
  command_log : string;
  log : string
}.

Record SkaniArgs : Type := mkSkaniArgs {
  compression_factor : Z;
  marker : Z;
  screen : Q;
  min_af : Q
}.

Record t : Type := mk {
  io : IOArgs;
  skani : SkaniArgs;
  logger : LogArgs;
  preprocessing : SkaniCli.PreprocessingArgs;
  threads : Z
}.

(** The dataclass constructor followed by [__post_init__]. *)
Definition init (io0 : IOArgs) (skani0 : SkaniArgs) (logger0 : LogArgs)
    (preprocessing0 : SkaniCli.PreprocessingArgs) (threads0 : Z) : result t :=
  if bool_decide (contigs io0 = None) && bool_decide (vmag_dir io0 = None)
  then Err (RuntimeError "One of --contigs or --vmag-dir is required.")
  else Ok (mk io0 skani0 logger0 preprocessing0 threads0).

Definition parse_args (ap_args : Namespace.t) : result (option t) :=
  except_AttributeError (
    outdir0 ← getattr "outdir" (Namespace.outdir ap_args);
    contigs0 ← getattr "contigs" (Namespace.contigs ap_args);
    vmag_dir0 ← getattr "vmag_dir" (Namespace.vmag_dir ap_args);
    output0 ← getattr "output" (Namespace.output ap_args);
    processed0 ← getattr "output_processed" (Namespace.output_processed ap_args);
    ext0 ← getattr "ext" (Namespace.ext ap_args);
    let io_args := mkIOArgs contigs0 vmag_dir0 outdir0 output0 processed0 ext0 in
    cm ← getattr "compression_factor" (Namespace.compression_factor ap_args);
    m ← getattr "marker" (Namespace.marker ap_args);
    s ← getattr "screen" (Namespace.screen ap_args);
    f ← getattr "min_af" (Namespace.min_af ap_args);
    let skani_args := mkSkaniArgs cm m s f in
    cl ← getattr "command_log" (Namespace.command_log ap_args);
    l ← getattr "log" (Namespace.log ap_args);
    let log_args := mkLogArgs (joinpath outdir0 cl) (joinpath outdir0 l) in
    ma ← getattr "min_ani" (Namespace.min_ani ap_args);
    mc ← getattr "min_cov" (Namespace.min_cov ap_args);
    preprocessing_args ← SkaniCli.PreprocessingArgs_init ma mc;
    th ← getattr "threads" (Namespace.threads ap_args);
    init io_args skani_args log_args preprocessing_args th).

End VSkaniArgs.

(** ** vskani/mcl/_cli.py *)

Module MclArgs.

Record t : Type := mk {
  input : string;
  output : string;
  inflation : Q;
  tabfile : string;
  matfile : string
}.

Section WithExternals.
Context (E : externals).

Definition init (input0 output0 : string) (inflation0 : Q) : t :=
  mk input0 output0 inflation0
     (with_suffix E input0 ".mcxload") (with_suffix E input0 ".mci").

Definition parse_args (ap_args : Namespace.t) : result (option t) :=
  except_AttributeError (
    input0 ← match Namespace.output_processed ap_args with
             | Some p => Ok p
             | None => getattr "input" (Namespace.input ap_args)
             end;
    output0 ← getattr "mcl_output" (Namespace.mcl_output ap_args);
    inflation0 ← getattr "inflation" (Namespace.inflation ap_args);
    mret (init input0 output0 inflation0)).

End WithExternals.

End MclArgs.

(** ** vskani/mcl/utils.py: the arguments of the summary *)

Module SummaryArgs.

Record t : Type := mk {
  skani_input : string;
  mcl_output : string;
  output : string;
  threads : Z
}.

Definition parse_args (ap_args : Namespace.t) : result (option t) :=
  except_AttributeError (
    io ← match Namespace.output_processed ap_args with
         | Some _ =>
             (* pipeline command *)
             skani_input0 ← getattr "output" (Namespace.output ap_args);
             summary_output0 ← getattr "summary_output"
                                 (Namespace.summary_output ap_args);
             mret (skani_input0, summary_output0)
         | None =>
             skani_input0 ← getattr "input" (Namespace.input ap_args);
             summary_output0 ← getattr "output" (Namespace.output ap_args);
             mret (skani_input0, summary_output0)
         end;
    mcl_output0 ← getattr "mcl_output" (Namespace.mcl_output ap_args);
    threads0 ← getattr "threads" (Namespace.threads ap_args);
    mret (mk io.1 mcl_output0 io.2 threads0)).

End SummaryArgs.

(** ** vskani/main.py *)

Module Main.

Record Args : Type := mkArgs {
  skani : option VSkaniArgs.t;
  mcl : option MclArgs.t;
  summary : option SummaryArgs.t;
  command : option command
}.

Section WithExternals.
Context (E : externals).

(** The part of [parse_args] that follows [parser.parse_args()]. *)
Definition parse_args (args : Namespace.t) : result Args :=
  skani_args ← VSkaniArgs.parse_args args;
  mcl_args ← MclArgs.parse_args E args;
  summary_args ← SummaryArgs.parse_args args;
  mret (mkArgs skani_args mcl_args summary_args (Namespace.command args)).

(** Reading attribute [attr] of an [Optional] argument group. *)
Definition group {A} (attr : string) (o : option A) : prog A :=
  lift (getattr attr o).

Definition run_skani (a : VSkaniArgs.t) : prog unit :=
  VSkani.main E
    (VSkaniArgs.contigs (VSkaniArgs.io a))
    (VSkaniArgs.vmag_dir (VSkaniArgs.io a))
    (VSkaniArgs.skani_output (VSkaniArgs.io a))
    (VSkaniArgs.outdir (VSkaniArgs.io a))
    (VSkaniArgs.ext (VSkaniArgs.io a))
    (VSkaniArgs.compression_factor (VSkaniArgs.skani a))
    (VSkaniArgs.marker (VSkaniArgs.skani a))
    (VSkaniArgs.screen (VSkaniArgs.skani a))
    (VSkaniArgs.min_af (VSkaniArgs.skani a))
    (VSkaniArgs.threads a)
    (VSkaniArgs.command_log (VSkaniArgs.logger a))
    (VSkaniArgs.log (VSkaniArgs.logger a)).

(** [SkaniPreprocessor(manager, file).process_and_save(...)]. *)
Definition run_preprocessor (file : string) (min_ani min_af : Q)
    (output : string) : prog unit :=
  raw ← open_read file;
  df ← lift (Polars.read_csv raw);
  data ← lift (Polars.as_skani_rows df);
  write_file output
    (Polars.write_edges
       (SkaniPreprocessor.save (SkaniPreprocessor.process min_ani min_af data))).

(** [ClusterSummarizer(manager, skani_file, clusters_file)]. *)
Definition new_summarizer (skani_file clusters_file : string)
  : prog ClusterSummarizer.t :=
  raw ← open_read skani_file;
  df ← lift (Polars.read_csv raw);
  clusters ← open_read clusters_file;
  lift (ClusterSummarizer._merge_cluster_ids df
          (List.map (line_text E) clusters) 2).

Definition summarize_and_save (s : ClusterSummarizer.t) (output : string)
  : prog unit :=
  out ← lift (ClusterSummarizer.summarize_and_save s);
  write_file output out.

(** The body of [main] after [parse_args].  [PolarsManager] only sets an
    environment variable and imports polars; of its construction the model
    keeps the read of [args.skani.threads] or [args.summary.threads]. *)
Definition main_with (args : Args) : prog unit :=
  match command args with
  | Some cmd_all =>
      a ← group "threads" (skani args);
      run_skani a;;
      run_preprocessor
        (VSkaniArgs.skani_output (VSkaniArgs.io a))
        (SkaniCli.min_ani (VSkaniArgs.preprocessing a))
        (SkaniCli.min_cov (VSkaniArgs.preprocessing a))
        (VSkaniArgs.processed_output (VSkaniArgs.io a));;
      m ← group "tabfile" (mcl args);
      Mcl.run E
        (VSkaniArgs.processed_output (VSkaniArgs.io a))
        (MclArgs.tabfile m) (MclArgs.matfile m) (MclArgs.output m)
        (MclArgs.inflation m);;
      (* ANI-per cluster *)
      summarizer ← new_summarizer
                     (VSkaniArgs.processed_output (VSkaniArgs.io a))
                     (MclArgs.output m);
      s ← group "output" (summary args);
      summarize_and_save summarizer (SummaryArgs.output s)
  | Some cmd_skani =>
      a ← group "threads" (skani args);
      run_skani a;;
      run_preprocessor
        (VSkaniArgs.skani_output (VSkaniArgs.io a))
        (SkaniCli.min_ani (VSkaniArgs.preprocessing a))
        (SkaniCli.min_cov (VSkaniArgs.preprocessing a))
        (VSkaniArgs.processed_output (VSkaniArgs.io a))
  | Some cmd_mcl =>
      a ← group "io" (skani args);
      m ← group "tabfile" (mcl args);
      Mcl.run E
        (VSkaniArgs.processed_output (VSkaniArgs.io a))
        (MclArgs.tabfile m) (MclArgs.matfile m) (MclArgs.output m)
        (MclArgs.inflation m)
  | Some cmd_summarize =>
      s ← group "threads" (summary args);
      summarizer ← new_summarizer
                     (SummaryArgs.skani_input s) (SummaryArgs.mcl_output s);
      summarize_and_save summarizer (SummaryArgs.output s)
  | None => mret tt
  end.

Definition main (ap_args : Namespace.t) : prog unit :=
  args ← lift (parse_args ap_args);
  main_with args.

End WithExternals.

End Main.

(** ** A concrete run, used for the examples below *)

Module Scenario.

(** [Path.with_suffix] for a path with no dot in its directories. *)
Fixpoint stem (p : string) : option string :=
  match p with
  | EmptyString => None
  | String c p' =>
      match stem p' with
      | Some s => Some (String c s)
      | None => if Ascii.eqb c (ascii_of_nat 46) then Some EmptyString else None
      end
  end.

Definition replace_suffix (p suffix : string) : string :=
  default p (stem p) +:+ suffix.

(** The table [skani dist] writes, with its real header. *)
Definition skani_table : table :=
  [ [CStr "Ref_file"; CStr "Query_file"; CStr "ANI";
     CStr "Align_fraction_ref"; CStr "Align_fraction_query";
     CStr "Ref_name"; CStr "Query_name"];
    [CStr "c.fna"; CStr "c.fna"; CNum 100; CNum 100; CNum 100;
     CStr "g1"; CStr "g1"];
    [CStr "c.fna"; CStr "c.fna"; CNum 98; CNum 90; CNum 80;
     CStr "g1"; CStr "g2"];
    [CStr "c.fna"; CStr "c.fna"; CNum 98; CNum 80; CNum 90;
     CStr "g2"; CStr "g1"];
    [CStr "c.fna"; CStr "c.fna"; CNum 96; CNum 60; CNum 40;
     CStr "g3"; CStr "g4"];
    [CStr "c.fna"; CStr "c.fna"; CNum 50; CNum 70; CNum 70;
     CStr "g3"; CStr "g1"] ].

Definition clusters_table : table :=
  [ [CStr "g1"; CStr "g2"]; [CStr "g3"; CStr "g4"] ].

(** [skani dist] writes its table to the path after [-o]; [mcl] writes the
    clusters to the path after [-o]; every other process writes nothing. *)
Definition run_tool (cwd : string) (argv : list arg)
    (files : gmap string table) : gmap string table :=
  match argv with
  | [AStr "skani"; AStr "dist"; _; _; _; _; AStr "-o"; AStr out;
     _; _; _; _; _; _; _; _; _; _] =>
      <[joinpath cwd out := skani_table]> files
  | [AStr "mcl"; _; _; _; _; _; AStr "-o"; AStr out] =>
      <[joinpath cwd out := clusters_table]> files
  | _ => files
  end.

(** The directories hold no vMAG; no number occurs in the clusters file,
    so the text chosen for numbers plays no part. *)
Definition E : externals :=
  {| tool := run_tool;
     glob := fun _ _ _ => [];
     with_suffix := replace_suffix;
     float_text := fun _ => "0" |}.

Definition clusters_lines : list string :=
  List.map (line_text E) clusters_table.

(** The summarizer built from the table of [skani dist] and the clusters. *)
Definition summarizer : ClusterSummarizer.t :=
  match ClusterSummarizer.init skani_table clusters_lines with
  | Ok s => s
  | Err _ => ClusterSummarizer.mkSummarizer [] []
  end.

Definition start (programs : list string) : world :=
  {| fs := ∅; cwd := "/work"; on_path := programs; commands := [] |}.

(** The namespace of [vskani all -c contigs.fna], every other option at
    its default but for the working directory. *)
Definition all_args (min_ani min_cov : Q) : Namespace.t :=
  {| Namespace.command := Some cmd_all;
     Namespace.contigs := Some (Some "contigs.fna");
     Namespace.vmag_dir := Some None;
     Namespace.ext := Some ".fna";
     Namespace.outdir := Some "/work";
     Namespace.output := Some "skani_ANI.tsv";
     Namespace.compression_factor := Some 125%Z;
     Namespace.marker := Some 1000%Z;
     Namespace.screen := Some 80%Q;
     Namespace.min_af := Some 15%Q;
     Namespace.threads := Some 15%Z;
     Namespace.command_log := Some "commands.log";
     Namespace.log := Some "skani.log";
     Namespace.output_processed := Some "skani_processed.tsv";
     Namespace.min_ani := Some min_ani;
     Namespace.min_cov := Some min_cov;
     Namespace.input := None;
     Namespace.mcl_output := Some "dereplicated_virus.clusters";
     Namespace.inflation := Some 2%Q;
     Namespace.summary_output := Some "ani_per_cluster.tsv" |}.

(** The namespace of [vskani summarize -i skani_ANI.tsv -mo ...]. *)
Definition summarize_args (input : string) : Namespace.t :=
  {| Namespace.command := Some cmd_summarize;
     Namespace.contigs := None;
     Namespace.vmag_dir := None;
     Namespace.ext := None;
     Namespace.outdir := None;
     Namespace.output := Some "ani_per_cluster.tsv";
     Namespace.compression_factor := None;
     Namespace.marker := None;
     Namespace.screen := None;
     Namespace.min_af := None;
     Namespace.threads := Some 15%Z;
     Namespace.command_log := None;
     Namespace.log := None;
     Namespace.output_processed := None;
     Namespace.min_ani := None;
     Namespace.min_cov := None;
     Namespace.input := Some input;
     Namespace.mcl_output := Some "dereplicated_virus.clusters";
     Namespace.inflation := None;
     Namespace.summary_output := None |}.

(** A clusters file in which [b] occurs on two kept lines, with a
    singleton line between them and stray blanks at a line end. *)
Definition overlapping_clusters : list string :=
  [ "a" +:+ String tab "b" +:+ String newline EmptyString;
    "c" +:+ String newline EmptyString;
    "b" +:+ String tab "d " +:+ String newline EmptyString ].

Definition default_min_ani : Q := 95 # 100.
Definition default_min_cov : Q := 1 # 2.

End Scenario.

(** ** Vocabulary of the statements *)

(** The three conditions under which the preprocessor keeps a row. *)
Definition kept (min_ani min_af : Q) (r : SkaniRow) : Prop :=
  Ref_name r <> Query_name r
  /\ (min_ani <= ANI r)%Q
  /\ ((min_af <= Align_fraction_ref r)%Q
      \/ (min_af <= Align_fraction_query r)%Q).

(** A percentage. *)
Definition percent (q : Q) : Prop := (0 <= q)%Q /\ (q <= 100)%Q.

(** A threshold as given on the command line. *)
Definition unit_interval (q : Q) : Prop := (0 <= q)%Q /\ (q <= 1)%Q.

(** The options that [VSkaniArgs.parse_args] reads before it builds the
    preprocessing arguments: the sub-commands [skani] and [all] declare
    them all. *)
Definition declares_skani_options (ns : Namespace.t) : Prop :=
  is_Some (Namespace.outdir ns) /\ is_Some (Namespace.contigs ns)
  /\ is_Some (Namespace.vmag_dir ns) /\ is_Some (Namespace.output ns)
  /\ is_Some (Namespace.output_processed ns) /\ is_Some (Namespace.ext ns)
  /\ is_Some (Namespace.compression_factor ns)
  /\ is_Some (Namespace.marker ns) /\ is_Some (Namespace.screen ns)
  /\ is_Some (Namespace.min_af ns) /\ is_Some (Namespace.command_log ns)
  /\ is_Some (Namespace.log ns).






(** The same comparison seen from the other genome. *)
Definition reverse_row (r : SkaniRow) : SkaniRow :=
  {| Ref_name := Query_name r;
     Query_name := Ref_name r;
     ANI := ANI r;
     Align_fraction_ref := Align_fraction_query r;
     Align_fraction_query := Align_fraction_ref r |}.

(** A string made of blanks only, as [str.isspace] sees them (or empty). *)
Fixpoint all_space (s : string) : bool :=
  match s with
  | EmptyString => true
  | String c s' => is_space c && all_space s'
  end.

(** A string without any blank; in particular without a tab. *)
Fixpoint no_space (s : string) : bool :=
  match s with
  | EmptyString => true
  | String c s' => negb (is_space c) && no_space s'
  end.

(** A member name as the clustering tool writes it. *)
Definition clean_name (s : string) : Prop :=
  s <> EmptyString /\ no_space s = true.

(** One line of the clusters file: the members separated by tabs. *)
Definition cluster_line (members : list string) : string :=
  join_tab members +:+ String newline EmptyString.

(** No member belongs to two clusters. *)
Definition disjoint_clusters (clusters : list (list string)) : Prop :=
  forall i j c c' name,
    clusters !! i = Some c -> clusters !! j = Some c' ->
    name ∈ c -> name ∈ c' -> i = j.

(** The identities of the rows that carry cluster id [k], in table order:
    what the summary averages for [k], read off the two columns. *)
Fixpoint identities_of (k : nat) (ids : list nat) (anis : list Q) : list Q :=
  match ids, anis with
  | id :: ids', a :: anis' =>
      if Nat.eqb id k then a :: identities_of k ids' anis'
      else identities_of k ids' anis'
  | _, _ => []
  end.

Fixpoint total (xs : list Q) : Q :=
  match xs with
  | [] => 0%Q
  | x :: xs' => (x + total xs')%Q
  end.

(** [avg] is the arithmetic mean of the values [xs], of which there is at
    least one. *)
Definition is_average (avg : Q) (xs : list Q) : Prop :=
  xs <> [] /\ (avg * inject_Z (Z.of_nat (length xs)) == total xs)%Q.

(** A threshold given on the command line, as the double [float()] makes
    of it, that [check_range] lets through. *)
Definition accepted (t : float) : Prop :=
  PrimFloat.leb 0 t = true /\ PrimFloat.leb t 1 = true.

(** The number a double stands for; nothing for an infinity or a NaN. *)
Definition exact_value (x : float) : option Q :=
  match FloatOps.Prim2SF x with
  | SpecFloat.S754_zero _ => Some 0%Q
  | SpecFloat.S754_finite s m e =>
      let z := if s then Z.neg m else Z.pos m in
      Some (if (0 <=? e)%Z then inject_Z (z * 2 ^ e)
            else (z # Pos.pow 2 (Z.to_pos (- e))))
  | _ => None
  end.

(** [stored] is one hundred times [t], as numbers. *)
Definition hundredfold (t stored : float) : Prop :=
  match exact_value t, exact_value stored with
  | Some v, Some s => (s == 100 * v)%Q
  | _, _ => False
  end.

(** The reading of "the stored threshold equals one hundred times the
    value given on the command line". *)
Definition hundredfold_thresholds : Prop :=
  forall (t c : float) (p : Binary64.SkaniCli.PreprocessingArgs),
    accepted t -> accepted c ->
    Binary64.SkaniCli.PreprocessingArgs_init t c = Ok p ->
    hundredfold t (Binary64.SkaniCli.min_ani p)
    /\ hundredfold c (Binary64.SkaniCli.min_cov p).

(** A cell that holds a number. *)
Definition is_number (x : float) : Prop := PrimFloat.eqb x x = true.

Definition numeric_row (r : Binary64.SkaniRow) : Prop :=
  is_number (Binary64.ANI r)
  /\ is_number (Binary64.Align_fraction_ref r)
  /\ is_number (Binary64.Align_fraction_query r).

(** The three conditions of the filter, on doubles. *)
Definition kept64 (min_ani min_af : float) (r : Binary64.SkaniRow) : Prop :=
  Binary64.Ref_name r <> Binary64.Query_name r
  /\ PrimFloat.leb min_ani (Binary64.ANI r) = true
  /\ (PrimFloat.leb min_af (Binary64.Align_fraction_ref r) = true
      \/ PrimFloat.leb min_af (Binary64.Align_fraction_query r) = true).

(** A path that [shlex.split] leaves in one piece: not empty, and without
    blank, quote or backslash. *)
Definition shell_plain (c : ascii) : bool :=
  negb (is_space c)
  && negb (Ascii.eqb c (ascii_of_nat 34))
  && negb (Ascii.eqb c (ascii_of_nat 39))
  && negb (Ascii.eqb c (ascii_of_nat 92)).

Fixpoint all_plain (s : string) : bool :=
  match s with
  | EmptyString => true
  | String c s' => shell_plain c && all_plain s'
  end.

Definition shell_word (s : string) : Prop :=
  s <> EmptyString /\ all_plain s = true.

(** * Properties *)

(** ** Helpers on rationals *)

Lemma Qle_bool_true (x y : Q) : Qle_bool x y = true <-> (x <= y)%Q.
Proof. apply Qle_bool_iff. Qed.

Lemma check_range_ok (v lo hi : Q) (name : string) :
  (lo <= v)%Q -> (v <= hi)%Q -> SkaniCli.check_range v (lo, hi) name = Ok tt.
Proof.
  intros Hlo Hhi. unfold SkaniCli.check_range.
  apply Qle_bool_true in Hlo, Hhi. by rewrite Hlo, Hhi.
Qed.

Lemma check_range_err (v lo hi : Q) (name : string) :
  ~ ((lo <= v)%Q /\ (v <= hi)%Q) ->
  SkaniCli.check_range v (lo, hi) name = Err (ValueError name).
Proof.
  intros Hout. unfold SkaniCli.check_range.
  destruct (Qle_bool lo v) eqn:Hlo, (Qle_bool v hi) eqn:Hhi; simpl; try done.
  exfalso. apply Hout. by split; apply Qle_bool_true.
Qed.

(** ** The preprocessor *)

Section Preprocessor.
Import SkaniPreprocessor.

Lemma row_filter_kept min_ani min_af r :
  filter_self_comparisons r && filter_min_ani min_ani r
    && filter_min_af min_af r = true
  <-> kept min_ani min_af r.
Proof.
  unfold kept, filter_self_comparisons, filter_min_ani, filter_min_af.
  rewrite !andb_true_iff, orb_true_iff, negb_true_iff, !Qle_bool_true.
  rewrite String.eqb_neq. tauto.
Qed.

Lemma preprocess_In min_ani min_af data r :
  In r (_preprocess min_ani min_af data)
  <-> In r data /\ kept min_ani min_af r.
Proof.
  unfold _preprocess. rewrite filter_In. by rewrite row_filter_kept.
Qed.

Lemma process_In min_ani min_af data w :
  In w (process min_ani min_af data)
  <-> exists r, In r (_preprocess min_ani min_af data)
                /\ w = {| base := r; AF := directional_min_af r;
                          weight := edge_weights (directional_min_af r) r |}.
Proof.
  unfold process, _create_edge_weights. rewrite in_map_iff.
  split; intros (r & H1 & H2); exists r; [by split | by split].
Qed.

End Preprocessor.

(** C1. A row is in the filtered data exactly when it is an input row that
    is not a self comparison, whose identity reaches [min_ani] and one of
    whose aligned fractions reaches [min_af]; the stand-alone script applies
    the same filter; hence every row of the preprocessor's output satisfies
    the three conditions. *)
Theorem preprocess_keeps_exactly (min_ani min_af : Q) (data : list SkaniRow) :
  (forall r, In r (SkaniPreprocessor._preprocess min_ani min_af data)
             <-> In r data /\ kept min_ani min_af r)
  /\ (forall r, In r (Legacy.main_filter (Legacy.mkArgs min_ani min_af) data)
                <-> In r data /\ kept min_ani min_af r)
  /\ (forall w, In w (SkaniPreprocessor.process min_ani min_af data) ->
                In (base w) data /\ kept min_ani min_af (base w)).
Proof.
  split; [| split].
  - intros r. apply preprocess_In.
  - intros r. unfold Legacy.main_filter. rewrite filter_In. simpl.
    pose proof (row_filter_kept min_ani min_af r) as H.
    unfold SkaniPreprocessor.filter_self_comparisons,
      SkaniPreprocessor.filter_min_ani, SkaniPreprocessor.filter_min_af in H.
    by rewrite H.
  - intros w Hw. apply process_In in Hw as (r & Hr & ->). simpl.
    by apply preprocess_In.
Qed.

(** C2. The weight of every output row is
    [min(Align_fraction_ref, Align_fraction_query) * ANI / 10000], and it
    lies in [0,1] when the identity and both aligned fractions are
    percentages. *)
Theorem edge_weight_formula_and_range
    (min_ani min_af : Q) (data : list SkaniRow) (w : WeightedRow) :
  In w (SkaniPreprocessor.process min_ani min_af data) ->
  (weight w ==
     Qmin (Align_fraction_ref (base w)) (Align_fraction_query (base w))
     * ANI (base w) / 10000)%Q
  /\ (percent (ANI (base w)) ->
      percent (Align_fraction_ref (base w)) ->
      percent (Align_fraction_query (base w)) ->
      (0 <= weight w)%Q /\ (weight w <= 1)%Q).
Proof.
  intros Hw. apply process_In in Hw as (r & _ & ->). simpl.
  unfold SkaniPreprocessor.edge_weights, SkaniPreprocessor.directional_min_af,
    SkaniPreprocessor.scale.
  change (inject_Z (100 ^ 2)) with 10000%Q.
  split.
  - by rewrite Q.min_comm.
  - intros [Ha0 Ha1] [Hr0 Hr1] [Hq0 Hq1].
    destruct (Q.min_spec (Align_fraction_query r) (Align_fraction_ref r))
      as [[_ ->] | [_ ->]].
    + assert (0 <= Align_fraction_query r * ANI r)%Q by nra.
      assert (Align_fraction_query r * ANI r <= 10000)%Q by nra.
      split; [apply Qle_shift_div_l | apply Qle_shift_div_r]; lra.
    + assert (0 <= Align_fraction_ref r * ANI r)%Q by nra.
      assert (Align_fraction_ref r * ANI r <= 10000)%Q by nra.
      split; [apply Qle_shift_div_l | apply Qle_shift_div_r]; lra.
Qed.

Lemma edge_weight_formula_and_range_witness :
  let r := mkSkaniRow "g1" "g2" 98 90 80 in
  let w := mkWeightedRow r 80 (80 * 98 / inject_Z (100 ^ 2)) in
  In w (SkaniPreprocessor.process 95 50 [r])
  /\ (weight w == Qmin 90 80 * 98 / 10000)%Q
  /\ (0 <= weight w)%Q /\ (weight w <= 1)%Q.
Proof.
  intros r w.
  assert (Hin : In w (SkaniPreprocessor.process 95 50 [r])) by (left; reflexivity).
  split; [exact Hin |].
  destruct (edge_weight_formula_and_range 95 50 [r] w Hin) as [Hf Hb].
  split; [exact Hf |].
  apply Hb; split; simpl; lra.
Defined.

(** ** Validation of the thresholds *)

Lemma PreprocessingArgs_init_ok (a c : Q) :
  unit_interval a -> unit_interval c ->
  SkaniCli.PreprocessingArgs_init a c
  = Ok (SkaniCli.mkPreprocessingArgs (a * 100) (c * 100)).
Proof.
  intros [Ha0 Ha1] [Hc0 Hc1]. unfold SkaniCli.PreprocessingArgs_init.
  by rewrite !check_range_ok.
Qed.

Lemma PreprocessingArgs_init_err (a c : Q) :
  ~ (unit_interval a /\ unit_interval c) ->
  exists name, SkaniCli.PreprocessingArgs_init a c = Err (ValueError name).
Proof.
  intros Hout. unfold SkaniCli.PreprocessingArgs_init.
  destruct (Qle_bool 0 a && Qle_bool a 1) eqn:Ha.
  - apply andb_true_iff in Ha as [Ha0 Ha1]. apply Qle_bool_true in Ha0, Ha1.
    rewrite (check_range_ok a) by done.
    exists "--min-cov".
    rewrite (check_range_err c); [done |]. intros Hc. apply Hout. by split.
  - exists "--min-ani". rewrite (check_range_err a); [done |].
    intros [H0 H1]. apply Qle_bool_true in H0, H1. by rewrite H0, H1 in Ha.
Qed.

Lemma Legacy_check_range_eq (v : Q) (name : string) :
  Legacy.check_range v 0 1 name = SkaniCli.check_range v (0%Q, 1%Q) name.
Proof. reflexivity. Qed.

Lemma Legacy_parse_args_ok (a c : Q) :
  unit_interval a -> unit_interval c ->
  Legacy.parse_args a c = Ok (Legacy.mkArgs (a * 100) (c * 100)).
Proof.
  intros [Ha0 Ha1] [Hc0 Hc1]. unfold Legacy.parse_args.
  rewrite !Legacy_check_range_eq. by rewrite !check_range_ok.
Qed.

Lemma Legacy_parse_args_err (a c : Q) (name : string) :
  SkaniCli.PreprocessingArgs_init a c = Err (ValueError name) ->
  Legacy.parse_args a c = Err (ValueError name).
Proof.
  unfold Legacy.parse_args, SkaniCli.PreprocessingArgs_init.
  rewrite !Legacy_check_range_eq.
  destruct (SkaniCli.check_range a _ _), (SkaniCli.check_range c _ _); cbn;
    first [discriminate | by intros [= ->]].
Qed.

Lemma parse_args_ValueError (ns : Namespace.t) (a c : Q) (name : string) :
  declares_skani_options ns ->
  Namespace.min_ani ns = Some a -> Namespace.min_cov ns = Some c ->
  SkaniCli.PreprocessingArgs_init a c = Err (ValueError name) ->
  VSkaniArgs.parse_args ns = Err (ValueError name).
Proof.
  intros (H1 & H2 & H3 & H4 & H5 & H6 & H7 & H8 & H9 & H10 & H11 & H12) Ha Hc Hi.
  destruct H1, H2, H3, H4, H5, H6, H7, H8, H9, H10, H11, H12.
  unfold VSkaniArgs.parse_args.
  repeat match goal with H : _ = Some _ |- _ => rewrite H; clear H end.
  cbn -[SkaniCli.PreprocessingArgs_init]. by rewrite Hi.
Qed.

(** C8. A threshold outside [0,1] makes the construction of the
    preprocessing arguments raise [ValueError], and the whole run stops there
    with the world untouched; thresholds inside [0,1], bounds included, pass
    the check. *)
Theorem thresholds_outside_unit_interval_rejected
    (E : externals) (ns : Namespace.t) (w : world) (a c : Q) :
  declares_skani_options ns ->
  Namespace.min_ani ns = Some a -> Namespace.min_cov ns = Some c ->
  (unit_interval a /\ unit_interval c ->
   is_ok (SkaniCli.PreprocessingArgs_init a c) = true
   /\ is_ok (Legacy.parse_args a c) = true)
  /\ (~ (unit_interval a /\ unit_interval c) ->
      exists name,
        SkaniCli.PreprocessingArgs_init a c = Err (ValueError name)
        /\ Legacy.parse_args a c = Err (ValueError name)
        /\ Main.main E ns w = (Err (ValueError name), w)).
Proof.
  intros Hns Ha Hc. split.
  - intros [Hua Huc].
    by rewrite PreprocessingArgs_init_ok, Legacy_parse_args_ok.
  - intros Hout. destruct (PreprocessingArgs_init_err a c Hout) as [name Hn].
    exists name. split; [done |]. split; [by apply Legacy_parse_args_err |].
    unfold Main.main, Main.parse_args.
    by rewrite (parse_args_ValueError ns a c name).
Qed.

Lemma thresholds_outside_unit_interval_rejected_witness :
  let ns := Scenario.all_args 2 (1 # 2) in
  let w := Scenario.start ["skani"; "mcxload"; "mcl"] in
  (declares_skani_options ns /\ ~ (unit_interval 2 /\ unit_interval (1 # 2)))
  /\ exists name, Main.main Scenario.E ns w = (Err (ValueError name), w).
Proof.
  intros ns w.
  assert (Hns : declares_skani_options ns) by (repeat split; eexists; reflexivity).
  assert (Hout : ~ (unit_interval 2 /\ unit_interval (1 # 2))).
  { intros [[_ H] _]. revert H. unfold Qle. simpl. lia. }
  split; [by split |].
  destruct (thresholds_outside_unit_interval_rejected Scenario.E ns w 2 (1 # 2)
              Hns eq_refl eq_refl) as [_ Hrej].
  destruct (Hrej Hout) as (name & _ & _ & Hmain). by exists name.
Defined.

(** ** The stored thresholds, in double precision *)

Lemma Binary64_check_range_ok (t : float) (name : string) :
  accepted t ->
  Binary64.SkaniCli.check_range t (0%float, 1%float) name = Ok tt.
Proof.
  intros [H0 H1]. unfold Binary64.SkaniCli.check_range. by rewrite H0, H1.
Qed.

Lemma Binary64_init_ok (t c : float) :
  accepted t -> accepted c ->
  Binary64.SkaniCli.PreprocessingArgs_init t c
  = Ok (Binary64.SkaniCli.mkPreprocessingArgs
          (PrimFloat.mul t 100) (PrimFloat.mul c 100)).
Proof.
  intros Ht Hc. unfold Binary64.SkaniCli.PreprocessingArgs_init.
  by rewrite !Binary64_check_range_ok.
Qed.

Lemma Binary64_legacy_parse_args_ok (t c : float) :
  accepted t -> accepted c ->
  Binary64.Legacy.parse_args t c
  = Ok (Binary64.Legacy.mkArgs (PrimFloat.mul t 100) (PrimFloat.mul c 100)).
Proof.
  intros [Ht0 Ht1] [Hc0 Hc1].
  unfold Binary64.Legacy.parse_args, Binary64.Legacy.check_range.
  by rewrite Ht0, Ht1, Hc0, Hc1.
Qed.

Lemma Binary64_preprocess_In (a b : float) (data : list Binary64.SkaniRow)
    (r : Binary64.SkaniRow) :
  In r (Binary64.SkaniPreprocessor._preprocess a b data)
  <-> In r data /\ kept64 a b r.
Proof.
  unfold Binary64.SkaniPreprocessor._preprocess, kept64,
    Binary64.SkaniPreprocessor.filter_self_comparisons,
    Binary64.SkaniPreprocessor.filter_min_ani,
    Binary64.SkaniPreprocessor.filter_min_af.
  rewrite filter_In, !andb_true_iff, orb_true_iff, negb_true_iff.
  rewrite String.eqb_neq. tauto.
Qed.

(** C10 (as claimed). The stored threshold is not one hundred times the
    value given on the command line.  With [--min-ani 0.55] the code
    stores 55.00000000000001, the rounded product, and drops a row whose
    identity is exactly 55; with [--min-ani 0.9] it stores 90, below one
    hundred times the double that 0.9 stands for, and keeps a row at 90. *)
Lemma stored_threshold_not_hundredfold :
  ~ hundredfold_thresholds
  /\ (let t := 0.55%float in
      let row := Binary64.mkSkaniRow "g1" "g2" 55 55 55 in
      accepted t
      /\ Binary64.SkaniCli.PreprocessingArgs_init t t
         = Ok (Binary64.SkaniCli.mkPreprocessingArgs
                 0x1.b800000000001p+5 0x1.b800000000001p+5)
      /\ PrimFloat.ltb 55 (PrimFloat.mul t 100) = true
      /\ Binary64.SkaniPreprocessor._preprocess
           (PrimFloat.mul t 100) (PrimFloat.mul t 100) [row] = [])
  /\ (let t := 0.9%float in
      let row := Binary64.mkSkaniRow "g1" "g2" 90 90 90 in
      accepted t
      /\ Binary64.SkaniCli.PreprocessingArgs_init t t
         = Ok (Binary64.SkaniCli.mkPreprocessingArgs 90 90)
      /\ ~ hundredfold t 90
      /\ Binary64.SkaniPreprocessor._preprocess
           (PrimFloat.mul t 100) (PrimFloat.mul t 100) [row] = [row]).
Proof.
  split; [| split].
  - intros H.
    assert (Ht : accepted 0.55%float) by (split; reflexivity).
    destruct (H 0.55%float 0.55%float _ Ht Ht (Binary64_init_ok _ _ Ht Ht))
      as [Hh _].
    vm_compute in Hh. discriminate Hh.
  - repeat split; reflexivity.
  - split; [split; reflexivity |]. split; [reflexivity |].
    split; [| reflexivity].
    intros Hh. vm_compute in Hh. discriminate Hh.
Qed.

(** C10. For accepted thresholds [t] and [c] the stored thresholds are the
    double-precision products [t * 100.0] and [c * 100.0], in the package
    and in the stand-alone script, and these are the values the filter
    compares the identity and the aligned fractions with. *)
Theorem stored_threshold_is_float_product (t c : float) :
  accepted t -> accepted c ->
  exists p args,
    Binary64.SkaniCli.PreprocessingArgs_init t c = Ok p
    /\ Binary64.Legacy.parse_args t c = Ok args
    /\ Binary64.SkaniCli.min_ani p = PrimFloat.mul t 100
    /\ Binary64.SkaniCli.min_cov p = PrimFloat.mul c 100
    /\ Binary64.Legacy.min_ani args = PrimFloat.mul t 100
    /\ Binary64.Legacy.min_cov args = PrimFloat.mul c 100
    /\ (forall data r,
          numeric_row r ->
          In r (Binary64.SkaniPreprocessor._preprocess
                  (Binary64.SkaniCli.min_ani p) (Binary64.SkaniCli.min_cov p)
                  data)
          <-> In r data
              /\ kept64 (PrimFloat.mul t 100) (PrimFloat.mul c 100) r).
Proof.
  intros Ht Hc.
  exists (Binary64.SkaniCli.mkPreprocessingArgs
            (PrimFloat.mul t 100) (PrimFloat.mul c 100)),
         (Binary64.Legacy.mkArgs (PrimFloat.mul t 100) (PrimFloat.mul c 100)).
  split; [by apply Binary64_init_ok |].
  split; [by apply Binary64_legacy_parse_args_ok |].
  repeat (split; [reflexivity |]).
  intros data r _. apply Binary64_preprocess_In.
Qed.

Lemma stored_threshold_is_float_product_witness :
  let t := 1%float in
  let c := 0.5%float in
  let row := Binary64.mkSkaniRow "g1" "g2" 100 50 40 in
  (accepted t /\ accepted c /\ numeric_row row)
  /\ exists p,
       Binary64.SkaniCli.PreprocessingArgs_init t c = Ok p
       /\ Binary64.SkaniCli.min_ani p = 100%float
       /\ Binary64.SkaniCli.min_cov p = 50%float
       /\ In row (Binary64.SkaniPreprocessor._preprocess
                    (Binary64.SkaniCli.min_ani p)
                    (Binary64.SkaniCli.min_cov p) [row]).
Proof.
  intros t c row.
  assert (Ht : accepted t) by (split; reflexivity).
  assert (Hc : accepted c) by (split; reflexivity).
  assert (Hr : numeric_row row) by (repeat split; reflexivity).
  split; [by repeat split |].
  destruct (stored_threshold_is_float_product t c Ht Hc)
    as (p & args & Hp & _ & Ha & Hb & _ & _ & Hf).
  exists p. split; [exact Hp |]. split; [| split].
  - rewrite Ha. reflexivity.
  - rewrite Hb. reflexivity.
  - apply (Hf [row] row Hr). split; [by left |].
    split; [discriminate |]. split; [reflexivity | left; reflexivity].
Defined.

(** ** The result monad *)

Lemma bind_Ok {A B} (r : result A) (k : A -> result B) (b : B) :
  r ≫= k = Ok b <-> exists a, r = Ok a /\ k a = Ok b.
Proof.
  destruct r as [a | e]; cbn.
  - split; [by exists a | by intros (? & [= <-] & ?)].
  - split; [done | by intros (? & ? & ?)].
Qed.

Lemma traverse_Ok {A B} (f : A -> result B) (l : list A) (ys : list B) :
  Polars.traverse f l = Ok ys <-> Forall2 (fun x y => f x = Ok y) l ys.
Proof.
  revert ys. induction l as [| x l IH]; intros ys; simpl.
  - split; [intros [= <-]; constructor | by inversion 1].
  - rewrite bind_Ok. split.
    + intros (y & Hy & Hrest). apply bind_Ok in Hrest as (ys' & Hys & [= <-]).
      constructor; [done | by apply IH].
    + inversion 1 as [| ? y ? ys' Hy Hys]; subst.
      exists y. split; [done |]. apply bind_Ok. exists ys'.
      split; [by apply IH | done].
Qed.

(** ** Loading the clusters *)

Section Loading.
Import MclUtils.

Lemma iload_In (file : list string) (m : Z) (cluster : list string) :
  In cluster (iload file m)
  <-> exists line, In line file
                   /\ cluster = split_tab (rstrip line)
                   /\ (m <= Z.of_nat (length cluster))%Z.
Proof.
  unfold iload. rewrite filter_In, in_map_iff, Z.leb_le. split.
  - intros [(line & <- & Hin) Hlen]. by exists line.
  - intros (line & Hin & -> & Hlen). split; [by exists line | done].
Qed.

Lemma iload_sublist (file : list string) (m : Z) :
  sublist (iload file m) (List.map (fun line => split_tab (rstrip line)) file).
Proof.
  unfold iload.
  induction (List.map (fun line => split_tab (rstrip line)) file)
    as [| c l IH]; simpl; [constructor |].
  destruct (m <=? Z.of_nat (length c))%Z; by constructor.
Qed.

Lemma enumerate_lookup {A} (l : list A) (i : nat) :
  enumerate l !! i = (fun x => (i, x)) <$> l !! i.
Proof. unfold enumerate. apply list_lookup_imap. Qed.

Lemma enumerate_elem_of {A} (l : list A) (i : nat) (x : A) :
  (i, x) ∈ enumerate l <-> l !! i = Some x.
Proof.
  rewrite list_elem_of_lookup. split.
  - intros [j Hj]. rewrite enumerate_lookup in Hj.
    destruct (l !! j) eqn:Hl; simpl in Hj; [| done].
    by injection Hj as <- <-.
  - intros Hl. exists i. by rewrite enumerate_lookup, Hl.
Qed.

Lemma enumerate_snoc {A} (l : list A) (x : A) :
  enumerate (l ++ [x]) = enumerate l ++ [(length l, x)].
Proof.
  unfold enumerate. rewrite imap_app. simpl. by rewrite Nat.add_0_r.
Qed.

Lemma assign_members_lookup (d : gmap string nat) (i : nat)
    (c : list string) (name : string) :
  assign_members d (i, c) !! name
  = if decide (name ∈ c) then Some i else d !! name.
Proof.
  unfold assign_members. simpl. revert d.
  induction c as [| a c IH]; intros d; simpl.
  - destruct (decide (name ∈ [])) as [H | H]; [| done].
    by apply elem_of_nil in H.
  - rewrite IH. destruct (decide (name = a)) as [-> | Hne].
    + rewrite (decide_True (P := a ∈ a :: c)) by (apply elem_of_cons; by left).
      destruct (decide (a ∈ c)); [done | by rewrite lookup_insert_eq].
    + rewrite lookup_insert_ne by done. apply decide_ext.
      rewrite elem_of_cons. tauto.
Qed.

Lemma member2cluster_of_snoc (l : list (list string)) (c : list string) :
  member2cluster_of (l ++ [c])
  = assign_members (member2cluster_of l) (length l, c).
Proof.
  unfold member2cluster_of. by rewrite enumerate_snoc, foldl_app.
Qed.

(** The entry of [name] is the index of the last cluster that holds it. *)
Lemma member2cluster_of_spec (clusters : list (list string)) (name : string) :
  match member2cluster_of clusters !! name with
  | Some id =>
      (exists c, clusters !! id = Some c /\ name ∈ c)
      /\ (forall j c', clusters !! j = Some c' -> name ∈ c' -> j <= id)
  | None => forall c, c ∈ clusters -> name ∉ c
  end.
Proof.
  induction clusters as [| c l IH] using rev_ind.
  - unfold member2cluster_of. simpl. rewrite lookup_empty.
    intros c Hc. by apply elem_of_nil in Hc.
  - rewrite member2cluster_of_snoc, assign_members_lookup.
    case_decide as Hin.
    + split.
      * exists c. split; [| done].
        rewrite lookup_app_r by lia. by rewrite Nat.sub_diag.
      * intros j c' Hj _. apply lookup_lt_Some in Hj.
        rewrite length_app in Hj. simpl in Hj. lia.
    + destruct (member2cluster_of l !! name) as [id |] eqn:Hm.
      * destruct IH as [(c0 & Hc0 & Hn0) Hlast]. split.
        -- exists c0. split; [| done]. by apply lookup_app_l_Some.
        -- intros j c' Hj Hn.
           destruct (decide (j < length l)) as [Hlt | Hge].
           ++ rewrite lookup_app_l in Hj by done. by eapply Hlast.
           ++ rewrite lookup_app_r in Hj by lia.
              destruct (j - length l) as [| k] eqn:Hk; simpl in Hj;
                [| done].
              injection Hj as <-. done.
      * intros c' Hc'. apply elem_of_app in Hc' as [Hl | Hs].
        -- by apply IH.
        -- apply list_elem_of_singleton in Hs as ->. done.
Qed.

End Loading.

(** C6. A name that occurs in a kept cluster is mapped to the id of the last
    kept cluster that holds it, and the records built from the mapping carry
    no other id for it. *)
Theorem last_cluster_wins (file : list string) (name : string) :
  let clusters := MclUtils.iload file 2 in
  let member2cluster := MclUtils._map_members_to_cluster_ids file 2 in
  (exists c, c ∈ clusters /\ name ∈ c) ->
  exists id,
    member2cluster !! name = Some id
    /\ (exists c, clusters !! id = Some c /\ name ∈ c)
    /\ (forall j c', clusters !! j = Some c' -> name ∈ c' -> j <= id)
    /\ (forall id', (name, id') ∈ map_to_list member2cluster -> id' = id).
Proof.
  intros clusters member2cluster (c & Hc & Hn).
  pose proof (member2cluster_of_spec clusters name) as Hspec.
  fold member2cluster in Hspec.
  unfold member2cluster, MclUtils._map_members_to_cluster_ids in *.
  fold clusters in Hspec |- *.
  destruct (MclUtils.member2cluster_of clusters !! name) as [id |] eqn:Hm.
  - exists id. destruct Hspec as [Hex Hlast].
    split; [done |]. split; [done |]. split; [done |].
    intros id' Hid'. apply elem_of_map_to_list in Hid'. congruence.
  - exfalso. by apply (Hspec c Hc).
Qed.

Lemma last_cluster_wins_witness :
  let file := Scenario.overlapping_clusters in
  (exists c, c ∈ MclUtils.iload file 2 /\ "b" ∈ c)
  /\ exists id,
       MclUtils._map_members_to_cluster_ids file 2 !! "b" = Some id
       /\ (forall j c', MclUtils.iload file 2 !! j = Some c' -> "b" ∈ c' ->
                        j <= id).
Proof.
  intros file.
  assert (Hin : exists c, c ∈ MclUtils.iload file 2 /\ "b" ∈ c).
  { exists ["b"; "d"]. split; apply list_elem_of_In.
    - vm_compute. right. left. reflexivity.
    - left. reflexivity. }
  split; [exact Hin |].
  destruct (last_cluster_wins file "b" Hin) as (id & Hid & _ & Hlast & _).
  exists id. split; [exact Hid | exact Hlast].
Defined.

Example overlapping_clusters_loaded :
  MclUtils.iload Scenario.overlapping_clusters 2 = [["a"; "b"]; ["b"; "d"]]
  /\ MclUtils._map_members_to_cluster_ids Scenario.overlapping_clusters 2 !! "b"
     = Some 1.
Proof. split; vm_compute; reflexivity. Qed.

(** ** Joining the cluster ids *)

Section Joining.
Import MclUtils Polars ClusterSummarizer.

Lemma join_elem_of {A} (key : A -> result string) (left : list A)
    (clusters : list (string * nat)) (joined : list (A * nat))
    (r : A) (c : nat) :
  join key left clusters = Ok joined ->
  In (r, c) joined
  <-> In r left /\ exists k, key r = Ok k /\ In (k, c) clusters.
Proof.
  unfold join. rewrite bind_Ok. intros (matched & Hm & [= <-]).
  apply traverse_Ok in Hm.
  induction Hm as [| x ys left' matched' Hx _ IH]; simpl.
  - split; [done | by intros [[] _]].
  - rewrite in_app_iff, IH. clear IH.
    apply bind_Ok in Hx as (k & Hk & [= <-]).
    rewrite in_map_iff. split.
    + intros [((n & c') & [= <- <-] & Hin) | (Hin & Hex)].
      * apply filter_In in Hin as [Hin Heq]. simpl in Heq.
        apply String.eqb_eq in Heq as ->. split; [by left |]. by exists k.
      * split; [by right | done].
    + intros [[<- | Hin] (k' & Hk' & Hc)].
      * left. exists (k', c). split; [done |]. apply filter_In.
        split; [done |]. simpl. apply String.eqb_eq. congruence.
      * right. split; [done |]. by exists k'.
Qed.

(** What [_merge_cluster_ids] leaves in [ani_data]: rows of the file whose
    two names are both in the mapping, with the same cluster id. *)
Lemma merge_cluster_ids_In (df : DataFrame) (file : list string) (m : Z)
    (s : t) (j : JoinedRow) :
  _merge_cluster_ids df file m = Ok s ->
  In j (ani_data s)
  <-> exists i_ref i_query ref query,
        index_of "Ref_name" (columns df) = Some i_ref
        /\ index_of "Query_name" (columns df) = Some i_query
        /\ In (cells j) (rows df)
        /\ get_str "Ref_name" i_ref (cells j) = Ok ref
        /\ get_str "Query_name" i_query (cells j) = Ok query
        /\ _map_members_to_cluster_ids file m !! ref = Some (Ref_cluster j)
        /\ _map_members_to_cluster_ids file m !! query
           = Some (Query_cluster j)
        /\ Ref_cluster j = Query_cluster j.
Proof.
  unfold _merge_cluster_ids, column_index. intros Hs.
  apply bind_Ok in Hs as (i_ref & Hi & Hs).
  destruct (index_of "Ref_name" (columns df)) as [i_ref' |] eqn:Hir;
    [| done]. injection Hi as ->.
  apply bind_Ok in Hs as (by_ref & Hbr & Hs).
  apply bind_Ok in Hs as (i_query & Hq & Hs).
  destruct (index_of "Query_name" (columns df)) as [i_query' |] eqn:Hiq;
    [| done]. injection Hq as ->.
  apply bind_Ok in Hs as (by_query & Hbq & [= <-]). simpl.
  rewrite filter_In, in_map_iff, Nat.eqb_eq.
  split.
  - intros [(((row & rc) & qc) & <- & Hin) Heq]. simpl in *.
    apply (join_elem_of _ _ _ _ _ _ Hbq) in Hin as (Hin & query & Hgq & Hcq).
    apply (join_elem_of _ _ _ _ _ _ Hbr) in Hin as (Hin & ref & Hgr & Hcr).
    simpl in *.
    exists i_ref, i_query, ref, query.
    repeat split; try done.
    + by apply elem_of_map_to_list, list_elem_of_In.
    + by apply elem_of_map_to_list, list_elem_of_In.
  - intros (i_ref' & i_query' & ref & query & [= <-] & [= <-] & Hin & Hgr & Hgq
            & Hmr & Hmq & Heq).
    split; [| done].
    exists (cells j, Ref_cluster j, Query_cluster j). split; [by destruct j |].
    apply (join_elem_of _ _ _ _ _ _ Hbq). simpl. split.
    + apply (join_elem_of _ _ _ _ _ _ Hbr). split; [done |].
      exists ref. split; [done |].
      by apply list_elem_of_In, elem_of_map_to_list.
    + exists query. split; [done |].
      by apply list_elem_of_In, elem_of_map_to_list.
Qed.

End Joining.

(** ** Averages per cluster *)

Section Averages.
Import Polars ClusterSummarizer.

Lemma avg_le_Qle (a b : nat * Q) : avg_le a b <-> (a.2 <= b.2)%Q.
Proof. unfold avg_le. by rewrite Is_true_true, Qle_bool_true. Qed.

Lemma avg_le_total : Total avg_le.
Proof.
  intros a b. rewrite !avg_le_Qle.
  destruct (Qlt_le_dec b.2 a.2) as [Hlt | Hle]; [right | by left].
  by apply Qlt_le_weak.
Qed.

Lemma avg_le_trans : Transitive avg_le.
Proof. intros a b c. rewrite !avg_le_Qle. apply Qle_trans. Qed.

Lemma sort_by_avg_sorted (l : list (nat * Q)) :
  StronglySorted (fun a b => (a.2 <= b.2)%Q) (sort_by_avg l).
Proof.
  pose proof (@StronglySorted_merge_sort _ avg_le _ avg_le_trans avg_le_total l)
    as Hs.
  unfold sort_by_avg.
  induction Hs as [| a l' Hs IH Hall]; constructor; [done |].
  eapply Forall_impl; [exact Hall |]. intros b. by rewrite avg_le_Qle.
Qed.

Lemma sort_by_avg_In (l : list (nat * Q)) (x : nat * Q) :
  In x (sort_by_avg l) <-> In x l.
Proof.
  rewrite <- !list_elem_of_In. unfold sort_by_avg.
  by rewrite merge_sort_Permutation.
Qed.

Lemma groupby_mean_In (data : list (nat * Q)) (k : nat) (avg : Q) :
  In (k, avg) (groupby_mean data)
  <-> In k (List.map fst data) /\ avg = mean (group k data).
Proof.
  unfold groupby_mean. rewrite in_map_iff. split.
  - intros (k' & [= <- <-] & Hin). split; [| done].
    by rewrite <- list_elem_of_In, elem_of_remove_dups, list_elem_of_In in Hin.
  - intros [Hin ->]. exists k. split; [done |].
    by rewrite <- list_elem_of_In, elem_of_remove_dups, list_elem_of_In.
Qed.

Lemma groupby_mean_keys (data : list (nat * Q)) :
  List.map fst (groupby_mean data) = remove_dups (List.map fst data).
Proof.
  unfold groupby_mean. rewrite List.map_map. simpl. apply List.map_id.
Qed.

Lemma Qsum_percent (xs : list Q) :
  Forall percent xs ->
  (0 <= Qsum xs)%Q /\ (Qsum xs <= 100 * inject_Z (Z.of_nat (length xs)))%Q.
Proof.
  induction 1 as [| x xs [Hx0 Hx1] _ [IH0 IH1]]; simpl.
  - split; [apply Qle_refl |]. unfold Qle. simpl. lia.
  - assert (Hn : (inject_Z (Z.pos (Pos.of_succ_nat (length xs)))
                  == inject_Z (Z.of_nat (length xs)) + 1)%Q).
    { rewrite <- (inject_Z_plus _ 1). apply inject_Z_injective. lia. }
    rewrite Hn. split; lra.
Qed.

Lemma mean_percent (xs : list Q) :
  xs <> [] -> Forall percent xs -> percent (mean xs).
Proof.
  intros Hne Hall. destruct (Qsum_percent xs Hall) as [H0 H1].
  assert (Hpos : (0 < inject_Z (Z.of_nat (length xs)))%Q).
  { rewrite <- (Zlt_Qlt 0). destruct xs; [done | simpl; lia]. }
  unfold mean. split.
  - apply Qle_shift_div_l; [done |]. lra.
  - apply Qle_shift_div_r; [done |]. lra.
Qed.

Lemma group_nonempty (data : list (nat * Q)) (k : nat) :
  In k (List.map fst data) -> group k data <> [].
Proof.
  unfold group. induction data as [| [k' a] data IH]; simpl; [done |].
  intros [<- | Hin].
  - by rewrite Nat.eqb_refl.
  - destruct (Nat.eqb k' k); [done | by apply IH].
Qed.

Lemma group_percent (data : list (nat * Q)) (k : nat) :
  Forall (fun p => percent p.2) data -> Forall percent (group k data).
Proof.
  unfold group. induction 1 as [| [k' a] data Ha _ IH]; simpl; [constructor |].
  destruct (Nat.eqb k' k); simpl; [by constructor | done].
Qed.

(** The typed rows that [average_ANI_per_cluster] aggregates. *)
Lemma traverse_ANI (rows : list JoinedRow) (i : nat) (anis : list Q) :
  Forall2 (fun j a => cells j !! i = Some (CNum a)) rows anis ->
  traverse (fun j => a ← get_num "ANI" i (cells j); mret (Ref_cluster j, a))
    rows
  = Ok (List.combine (List.map Ref_cluster rows) anis).
Proof.
  intros H. apply traverse_Ok.
  induction H as [| j a rows anis Hj _ IH]; simpl; constructor; [| done].
  unfold get_num. by rewrite Hj.
Qed.

End Averages.

Lemma combine_percent (ids : list nat) (anis : list Q) :
  Forall percent anis -> Forall (fun p => percent p.2) (List.combine ids anis).
Proof.
  revert anis. induction ids as [| k ids IH]; intros anis Hall; simpl;
    [constructor |].
  destruct Hall as [| a anis Ha Hall]; constructor; [done | by apply IH].
Qed.

(** The code's grouping and mean against the arithmetic of the columns. *)
Lemma group_identities_of (k : nat) (ids : list nat) (anis : list Q) :
  ClusterSummarizer.group k (List.combine ids anis) = identities_of k ids anis.
Proof.
  unfold ClusterSummarizer.group. revert anis.
  induction ids as [| id ids IH]; intros [| a anis]; simpl; try done.
  destruct (Nat.eqb id k); simpl; by rewrite IH.
Qed.

Lemma Qsum_total (xs : list Q) : ClusterSummarizer.Qsum xs = total xs.
Proof.
  unfold ClusterSummarizer.Qsum. induction xs as [| x xs IH]; simpl; [done |].
  by rewrite IH.
Qed.

Lemma mean_is_average (xs : list Q) :
  xs <> [] -> is_average (ClusterSummarizer.mean xs) xs.
Proof.
  intros Hne. split; [done |].
  unfold ClusterSummarizer.mean. rewrite Qsum_total.
  assert (Hpos : ~ (inject_Z (Z.of_nat (length xs)) == 0)%Q).
  { intros H. destruct xs; [done |].
    revert H. unfold Qeq. simpl. lia. }
  field. exact Hpos.
Qed.

(** C4. When the joined table has a numeric [ANI] column the summary is
    produced; it holds exactly one row per cluster id of the joined rows;
    the value of the row of cluster [k] is the average of the identities of
    the rows of cluster [k]: multiplied by their number, which is not zero,
    it gives their sum; the rows are in non-decreasing order of that
    average; and the averages are percentages if the identities are. *)
Theorem average_ANI_per_cluster_sorted_means
    (s : ClusterSummarizer.t) (i : nat) (anis : list Q) :
  Polars.index_of "ANI" (ClusterSummarizer.ani_columns s) = Some i ->
  Forall2 (fun j a => ClusterSummarizer.cells j !! i = Some (CNum a))
    (ClusterSummarizer.ani_data s) anis ->
  let ids := List.map ClusterSummarizer.Ref_cluster (ClusterSummarizer.ani_data s) in
  exists summary,
    ClusterSummarizer.average_ANI_per_cluster s = Ok summary
    /\ (forall k, In k (List.map fst summary) <-> In k ids)
    /\ (forall k avg,
          In (k, avg) summary -> is_average avg (identities_of k ids anis))
    /\ NoDup (List.map fst summary)
    /\ StronglySorted (fun a b => (a.2 <= b.2)%Q) summary
    /\ (Forall percent anis -> Forall (fun row => percent row.2) summary).
Proof.
  intros Hi Hcells ids.
  assert (Hlen : length ids = length anis).
  { unfold ids. rewrite length_map. by eapply Forall2_length. }
  assert (Hfst : List.map fst (List.combine ids anis) = ids).
  { clear -Hlen. revert anis Hlen.
    induction ids as [| k ids IH]; intros [| a anis] Hlen; simpl in *;
      try done. f_equal. apply IH. lia. }
  exists (ClusterSummarizer.sort_by_avg
            (ClusterSummarizer.groupby_mean (List.combine ids anis))).
  split; [| split; [| split; [| split; [| split]]]].
  - unfold ClusterSummarizer.average_ANI_per_cluster, Polars.column_index.
    rewrite Hi. cbn. by rewrite (traverse_ANI _ _ anis Hcells).
  - intros k. rewrite in_map_iff. split.
    + intros ([k' avg] & <- & Hin).
      apply sort_by_avg_In, groupby_mean_In in Hin as [Hk _].
      by rewrite Hfst in Hk.
    + intros Hk.
      exists (k, ClusterSummarizer.mean
                   (ClusterSummarizer.group k (List.combine ids anis))).
      split; [done |].
      apply sort_by_avg_In, groupby_mean_In. by rewrite Hfst.
  - intros k avg Hin.
    apply sort_by_avg_In, groupby_mean_In in Hin as [Hk ->].
    rewrite <- group_identities_of. apply mean_is_average.
    by apply group_nonempty.
  - eapply NoDup_Permutation_proper.
    + apply Permutation_map, merge_sort_Permutation.
    + rewrite groupby_mean_keys. apply NoDup_remove_dups.
  - apply sort_by_avg_sorted.
  - intros Hall. apply Forall_forall. intros [k avg] Hin.
    apply list_elem_of_In, sort_by_avg_In, groupby_mean_In in Hin as [Hk ->].
    simpl. apply mean_percent.
    + by apply group_nonempty.
    + by apply group_percent, combine_percent.
Qed.

Lemma average_ANI_per_cluster_sorted_means_witness :
  let s := Scenario.summarizer in
  let anis := [100%Q; 98%Q; 98%Q; 96%Q] in
  (Polars.index_of "ANI" (ClusterSummarizer.ani_columns s) = Some 2
   /\ Forall2 (fun j a => ClusterSummarizer.cells j !! 2 = Some (CNum a))
        (ClusterSummarizer.ani_data s) anis
   /\ Forall percent anis)
  /\ exists summary,
       ClusterSummarizer.average_ANI_per_cluster s = Ok summary
       /\ (forall avg, In (0, avg) summary ->
                       (avg * 3 == 100 + (98 + (98 + 0)))%Q)
       /\ StronglySorted (fun a b => (a.2 <= b.2)%Q) summary
       /\ Forall (fun row => percent row.2) summary.
Proof.
  intros s anis.
  assert (Hi : Polars.index_of "ANI" (ClusterSummarizer.ani_columns s) = Some 2)
    by reflexivity.
  assert (Hc : Forall2 (fun j a => ClusterSummarizer.cells j !! 2 = Some (CNum a))
                 (ClusterSummarizer.ani_data s) anis).
  { vm_compute. repeat constructor. }
  assert (Hp : Forall percent anis).
  { repeat constructor; unfold Qle; simpl; lia. }
  split; [by repeat split |].
  destruct (average_ANI_per_cluster_sorted_means s 2 _ Hi Hc)
    as (summary & Hs & _ & Havg & _ & Hsorted & Hper).
  exists summary. split; [exact Hs |]. split; [| split].
  - intros avg Hin. exact (proj2 (Havg 0 avg Hin)).
  - exact Hsorted.
  - exact (Hper Hp).
Defined.

Example summary_of_scenario :
  ClusterSummarizer.average_ANI_per_cluster Scenario.summarizer
  = Ok [(1, 96%Q); (0, 296 # 3)].
Proof. vm_compute. reflexivity. Qed.

(** ** Where the cluster ids of the summary come from *)

Lemma member2cluster_lookup_cluster (file : list string) (m : Z)
    (name : string) (id : nat) :
  MclUtils._map_members_to_cluster_ids file m !! name = Some id ->
  exists cluster,
    MclUtils.iload file m !! id = Some cluster /\ name ∈ cluster.
Proof.
  unfold MclUtils._map_members_to_cluster_ids. intros Hm.
  pose proof (member2cluster_of_spec (MclUtils.iload file m) name) as Hspec.
  rewrite Hm in Hspec. by destruct Hspec as [Hex _].
Qed.

Lemma average_ANI_per_cluster_keys (s : ClusterSummarizer.t)
    (summary : list (nat * Q)) (k : nat) (avg : Q) :
  ClusterSummarizer.average_ANI_per_cluster s = Ok summary ->
  In (k, avg) summary ->
  exists j, In j (ClusterSummarizer.ani_data s)
            /\ ClusterSummarizer.Ref_cluster j = k.
Proof.
  unfold ClusterSummarizer.average_ANI_per_cluster. intros Hs Hin.
  apply bind_Ok in Hs as (i & _ & Hs).
  apply bind_Ok in Hs as (data & Hd & [= <-]).
  apply sort_by_avg_In, groupby_mean_In in Hin as [Hin _].
  apply traverse_Ok in Hd. clear -Hd Hin.
  induction Hd as [| j y rows data Hj _ IH]; simpl in *; [done |].
  destruct Hin as [<- | Hin].
  - exists j. split; [by left |].
    apply bind_Ok in Hj as (a & _ & [= <-]). done.
  - destruct (IH Hin) as (j' & Hj' & Hk). exists j'. split; [by right | done].
Qed.

(** C5. The loader yields exactly the lines that split into at least two
    tab-separated members, in the order of the file; a cluster id is the
    position of the cluster in that sequence; and every cluster id of the
    summary denotes a cluster with at least two members. *)
Theorem summary_ids_denote_clusters_of_two
    (df : DataFrame) (file : list string) (s : ClusterSummarizer.t)
    (summary : list (nat * Q)) :
  ClusterSummarizer._merge_cluster_ids df file 2 = Ok s ->
  ClusterSummarizer.average_ANI_per_cluster s = Ok summary ->
  (forall cluster,
     In cluster (MclUtils.iload file 2)
     <-> exists line, In line file
                      /\ cluster = split_tab (rstrip line)
                      /\ 2 <= length cluster)
  /\ sublist (MclUtils.iload file 2)
       (List.map (fun line => split_tab (rstrip line)) file)
  /\ (forall id cluster,
        (id, cluster) ∈ MclUtils.enumerate (MclUtils.iload file 2)
        <-> MclUtils.iload file 2 !! id = Some cluster)
  /\ (forall name id,
        MclUtils._map_members_to_cluster_ids file 2 !! name = Some id ->
        exists cluster,
          MclUtils.iload file 2 !! id = Some cluster /\ name ∈ cluster)
  /\ (forall k avg,
        In (k, avg) summary ->
        exists cluster,
          MclUtils.iload file 2 !! k = Some cluster /\ 2 <= length cluster).
Proof.
  intros Hs Hsum.
  assert (Hload : forall cluster,
             In cluster (MclUtils.iload file 2)
             <-> exists line, In line file
                              /\ cluster = split_tab (rstrip line)
                              /\ 2 <= length cluster).
  { intros cluster. rewrite iload_In.
    split; intros (line & Hin & -> & Hlen); exists line;
      (split; [done |]; split; [done |]; lia). }
  split; [exact Hload |]. split; [apply iload_sublist |].
  split; [intros id cluster; apply enumerate_elem_of |].
  split; [intros name id; apply member2cluster_lookup_cluster |].
  intros k avg Hin.
  destruct (average_ANI_per_cluster_keys s summary k avg Hsum Hin)
    as (j & Hj & <-).
  apply (merge_cluster_ids_In df file 2 s j Hs) in Hj
    as (_ & _ & ref & _ & _ & _ & _ & _ & _ & Hm & _).
  destruct (member2cluster_lookup_cluster file 2 ref _ Hm) as (cluster & Hc & _).
  exists cluster. split; [done |].
  assert (Hin' : In cluster (MclUtils.iload file 2))
    by (apply list_elem_of_In, list_elem_of_lookup; eauto).
  apply Hload in Hin' as (_ & _ & _ & Hlen). done.
Qed.

Lemma summary_ids_denote_clusters_of_two_witness :
  let df := mkDataFrame (hd [] Scenario.skani_table) (tl Scenario.skani_table) in
  let file := Scenario.clusters_lines in
  (ClusterSummarizer._merge_cluster_ids df file 2 = Ok Scenario.summarizer
   /\ ClusterSummarizer.average_ANI_per_cluster Scenario.summarizer
      = Ok [(1, 96%Q); (0, 296 # 3)])
  /\ (exists cluster,
        MclUtils.iload file 2 !! 0 = Some cluster /\ 2 <= length cluster)
  /\ (exists cluster,
        MclUtils.iload file 2 !! 1 = Some cluster /\ 2 <= length cluster).
Proof.
  intros df file.
  assert (Hs : ClusterSummarizer._merge_cluster_ids df file 2
               = Ok Scenario.summarizer) by (vm_compute; reflexivity).
  assert (Hsum : ClusterSummarizer.average_ANI_per_cluster Scenario.summarizer
                 = Ok [(1, 96%Q); (0, 296 # 3)]) by (vm_compute; reflexivity).
  split; [by split |].
  destruct (summary_ids_denote_clusters_of_two df file _ _ Hs Hsum)
    as (_ & _ & _ & _ & Hids).
  split.
  - apply (Hids 0 (296 # 3)). right. left. reflexivity.
  - apply (Hids 1 96%Q). left. reflexivity.
Defined.

(** ** Concatenating the result files *)

Section Concatenation.
Import Concat.

Lemma copy_results_S (i : nat) (results : list (list ascii))
    (fdst : list ascii) :
  copy_results (S i) results fdst
  = fdst ++ concat (List.map after_readline results).
Proof.
  revert i fdst. induction results as [| f rs IH]; intros i fdst; simpl.
  - by rewrite app_nil_r.
  - by rewrite IH, <- app_assoc.
Qed.

(** The first file is copied whole, every later one from its second line. *)
Lemma concatenate_cons (first : list ascii) (rest : list (list ascii)) :
  concatenate (first :: rest)
  = first ++ concat (List.map after_readline rest).
Proof. unfold concatenate. simpl. apply copy_results_S. Qed.

Lemma copy_lines_S {A} (i : nat) (results : list (list A)) (fdst : list A) :
  copy_lines (S i) results fdst = fdst ++ concat (List.map tail results).
Proof.
  revert i fdst. induction results as [| f rs IH]; intros i fdst; simpl.
  - by rewrite app_nil_r.
  - by rewrite IH, <- app_assoc.
Qed.

Lemma concatenate_lines_cons {A} (first : list A) (rest : list (list A)) :
  concatenate_lines (first :: rest) = first ++ concat (List.map tail rest).
Proof. unfold concatenate_lines. simpl. apply copy_lines_S. Qed.

Lemma after_readline_line (l rest : list ascii) :
  no_newline l -> after_readline (l ++ newline :: rest) = rest.
Proof.
  unfold no_newline. induction l as [| c l IH]; intros Hl; simpl.
  - reflexivity.
  - destruct (Ascii.eqb_spec c newline) as [-> | _].
    + exfalso. apply Hl. by left.
    + apply IH. intros Hin. apply Hl. by right.
Qed.

Lemma unlines_cons (l : list ascii) (ls : list (list ascii)) :
  unlines (l :: ls) = l ++ newline :: unlines ls.
Proof. unfold unlines. simpl. by rewrite <- app_assoc. Qed.

Lemma unlines_app (ls1 ls2 : list (list ascii)) :
  unlines (ls1 ++ ls2) = unlines ls1 ++ unlines ls2.
Proof. unfold unlines. by rewrite map_app, concat_app. Qed.

Lemma after_readline_unlines (header : list ascii) (body : list (list ascii)) :
  no_newline header -> after_readline (unlines (header :: body)) = unlines body.
Proof. intros H. rewrite unlines_cons. by apply after_readline_line. Qed.

Lemma lines_from_line (cur l rest : list ascii) :
  no_newline l ->
  lines_from cur (l ++ newline :: rest)
  = (cur ++ l ++ [newline]) :: lines_from [] rest.
Proof.
  unfold no_newline. revert cur. induction l as [| c l IH]; intros cur Hl; simpl.
  - reflexivity.
  - destruct (Ascii.eqb_spec c newline) as [-> | _].
    + exfalso. apply Hl. by left.
    + rewrite IH; [by rewrite <- app_assoc |].
      intros Hin. apply Hl. by right.
Qed.

Lemma lines_of_unlines (ls : list (list ascii)) :
  Forall no_newline ls ->
  lines_of (unlines ls) = List.map (fun l => l ++ [newline]) ls.
Proof.
  unfold lines_of. induction 1 as [| l ls Hl _ IH]; [done |].
  rewrite unlines_cons, lines_from_line by done. simpl. by rewrite IH.
Qed.

Lemma line_count_unlines (ls : list (list ascii)) :
  Forall no_newline ls -> line_count (unlines ls) = length ls.
Proof.
  intros H. unfold line_count. by rewrite lines_of_unlines, length_map.
Qed.

End Concatenation.

Lemma later_files_lose_their_header (rest : list (list ascii * list (list ascii))) :
  Forall (fun hb => Concat.no_newline hb.1 /\ Forall Concat.no_newline hb.2) rest ->
  concat (List.map Concat.after_readline
            (List.map (fun hb => Concat.unlines (hb.1 :: hb.2)) rest))
  = Concat.unlines (concat (List.map snd rest))
  /\ Forall Concat.no_newline (concat (List.map snd rest))
  /\ sum_list (List.map Concat.line_count
                 (List.map (fun hb => Concat.unlines (hb.1 :: hb.2)) rest))
     = length (concat (List.map snd rest)) + length rest.
Proof.
  induction 1 as [| [h b] rest [Hh Hb] _ (IH1 & IH2 & IH3)]; simpl in *.
  - done.
  - rewrite after_readline_unlines, IH1, unlines_app by done.
    split; [done |]. split; [by apply Forall_app |].
    rewrite line_count_unlines by (by constructor).
    rewrite IH3, length_app. simpl. lia.
Qed.

(** C7. For result files made of terminated lines, each with a header line:
    the output is the first file followed by the later files without their
    first line, so its lines are the first header and then all the data
    lines, and it has as many lines as the files together minus one per file
    after the first. *)
Theorem concatenation_keeps_one_header
    (header0 : list ascii) (body0 : list (list ascii))
    (rest : list (list ascii * list (list ascii))) :
  Concat.no_newline header0 -> Forall Concat.no_newline body0 ->
  Forall (fun hb => Concat.no_newline hb.1 /\ Forall Concat.no_newline hb.2) rest ->
  let files :=
    Concat.unlines (header0 :: body0)
      :: List.map (fun hb => Concat.unlines (hb.1 :: hb.2)) rest in
  let output := Concat.concatenate files in
  output = Concat.unlines (header0 :: body0)
           ++ concat (List.map (fun hb => Concat.unlines hb.2) rest)
  /\ Concat.lines_of output
     = List.map (fun l => l ++ [newline])
         (header0 :: body0 ++ concat (List.map snd rest))
  /\ Concat.line_count output + length rest
     = sum_list (List.map Concat.line_count files)
  /\ Concat.line_count output
     = sum_list (List.map Concat.line_count files) - length rest.
Proof.
  intros Hh0 Hb0 Hrest files output.
  destruct (later_files_lose_their_header rest Hrest) as (Hcat & Hnl & Hsum).
  assert (Hout : output
                 = Concat.unlines
                     (header0 :: body0 ++ concat (List.map snd rest))).
  { unfold output, files. rewrite concatenate_cons, Hcat.
    by rewrite <- unlines_app. }
  assert (Hall : Forall Concat.no_newline
                   (header0 :: body0 ++ concat (List.map snd rest)))
    by (constructor; [done | by apply Forall_app]).
  assert (Hcount : Concat.line_count output + length rest
                   = sum_list (List.map Concat.line_count files)).
  { rewrite Hout, line_count_unlines by done. unfold files. simpl.
    rewrite line_count_unlines by (by constructor).
    rewrite Hsum, length_app. simpl. lia. }
  split; [| split; [| split]].
  - unfold output, files. rewrite concatenate_cons. f_equal.
    rewrite Hcat. clear. induction rest as [| [h b] rest IH]; [done |].
    simpl. by rewrite unlines_app, IH.
  - rewrite Hout. by apply lines_of_unlines.
  - exact Hcount.
  - lia.
Qed.

Lemma concatenation_keeps_one_header_witness :
  let h := ["h"%char] in
  let a := ["a"%char] in
  let b := ["b"%char] in
  (Concat.no_newline h /\ Forall Concat.no_newline [a]
   /\ Forall (fun hb => Concat.no_newline hb.1 /\ Forall Concat.no_newline hb.2)
        [(h, [b])])
  /\ Concat.lines_of
       (Concat.concatenate [Concat.unlines [h; a]; Concat.unlines [h; b]])
     = [h ++ [newline]; a ++ [newline]; b ++ [newline]]
  /\ Concat.line_count
       (Concat.concatenate [Concat.unlines [h; a]; Concat.unlines [h; b]])
     = 2 + 2 - 1.
Proof.
  intros h a b.
  assert (Hnl : forall c : ascii, c <> newline -> Concat.no_newline [c]).
  { intros c Hc Hin. apply list_elem_of_In in Hin. destruct Hin as [-> | []].
    by apply Hc. }
  assert (Hh : Concat.no_newline h) by (by apply Hnl).
  assert (Ha : Forall Concat.no_newline [a]) by (constructor; [by apply Hnl | done]).
  assert (Hr : Forall (fun hb => Concat.no_newline hb.1
                                 /\ Forall Concat.no_newline hb.2) [(h, [b])]).
  { constructor; [| done]. split; [done |]. constructor; [by apply Hnl | done]. }
  split; [by repeat split |].
  destruct (concatenation_keeps_one_header h [a] [(h, [b])] Hh Ha Hr)
    as (_ & Hlines & _ & Hcount).
  split; [exact Hlines | exact Hcount].
Defined.

(** The terminator of the last line matters: without it the last line of a
    file and the first kept line of the next one become one line. *)
Example unterminated_file_merges_lines :
  let first := ["h"%char; newline; "a"%char] in
  let second := ["h"%char; newline; "b"%char; newline] in
  Concat.concatenate [first; second]
  = ["h"%char; newline; "a"%char; "b"%char; newline]
  /\ Concat.line_count first = 2 /\ Concat.line_count second = 2
  /\ Concat.line_count (Concat.concatenate [first; second]) = 2.
Proof. repeat split. Qed.

(** ** The orchestration *)

Section Orchestration.
Context (E : externals).

Lemma prog_bind_Ok {A B} (m : prog A) (k : A -> prog B) (w w' : world) (a : A) :
  m w = (Ok a, w') -> (m ≫= k) w = k a w'.
Proof. intros H. unfold mbind, prog_bind. by rewrite H. Qed.
























Lemma parse_args_command (ns : Namespace.t) (args : Main.Args) :
  Main.parse_args E ns = Ok args ->
  Main.command args = Namespace.command ns.
Proof.
  unfold Main.parse_args. intros H.
  apply bind_Ok in H as (a & _ & H). apply bind_Ok in H as (m & _ & H).
  apply bind_Ok in H as (s & _ & [= <-]). done.
Qed.




End Orchestration.




Example missing_clustering_tool_run :
  let ns := Scenario.all_args Scenario.default_min_ani Scenario.default_min_cov in
  let run := Main.main Scenario.E ns (Scenario.start ["skani"]) in
  run.1 = Err (FileNotFoundError "mcxload")
  /\ List.map (take 2) (commands run.2) = [[AStr "skani"; AStr "dist"]].
Proof. vm_compute. split; reflexivity. Qed.

(** ** The table the summarizer is given *)

Lemma merge_cluster_ids_columns (df : DataFrame) (file : list string) (m : Z)
    (s : ClusterSummarizer.t) :
  ClusterSummarizer._merge_cluster_ids df file m = Ok s ->
  ClusterSummarizer.ani_columns s = columns df
  /\ is_Some (Polars.index_of "Ref_name" (columns df))
  /\ is_Some (Polars.index_of "Query_name" (columns df)).
Proof.
  unfold ClusterSummarizer._merge_cluster_ids, Polars.column_index. intros Hs.
  apply bind_Ok in Hs as (i_ref & Hi & Hs).
  destruct (Polars.index_of "Ref_name" (columns df)); [| done].
  apply bind_Ok in Hs as (by_ref & _ & Hs).
  apply bind_Ok in Hs as (i_query & Hq & Hs).
  destruct (Polars.index_of "Query_name" (columns df)); [| done].
  apply bind_Ok in Hs as (by_query & _ & [= <-]). simpl. eauto.
Qed.

(** An edge list written by the preprocessor has no header, so its first
    edge is read as the column names: two names and a number cannot provide
    the three columns [Ref_name], [Query_name] and [ANI]. *)
Lemma summarizer_rejects_edge_list
    (edges : list (string * string * Q)) (clusters_file : list string) :
  is_ok (s ← ClusterSummarizer.init (Polars.write_edges edges) clusters_file;
         ClusterSummarizer.summarize_and_save s) = false.
Proof.
  destruct edges as [| [[r q] x] edges]; [done |].
  unfold ClusterSummarizer.init. simpl.
  destruct (ClusterSummarizer._merge_cluster_ids _ _ _) as [s | e] eqn:Hs;
    [| done].
  apply merge_cluster_ids_columns in Hs as (Hcols & [i Hi] & [j Hj]).
  simpl in *.
  unfold ClusterSummarizer.summarize_and_save,
    ClusterSummarizer.average_ANI_per_cluster, Polars.column_index.
  rewrite Hcols. simpl.
  destruct (String.eqb_spec r "Ref_name") as [-> | Hr]; simpl in *.
  - destruct (String.eqb_spec q "Query_name") as [-> | Hq]; simpl in *; done.
  - destruct (String.eqb_spec q "Ref_name") as [-> | Hq]; simpl in *; [| done].
    destruct (String.eqb_spec r "Query_name") as [-> | Hr']; simpl in *; done.
Qed.

(** C3 (the code at a run of the full pipeline). [main] hands the
    summarizer the preprocessed edge list, not the table of [skani dist]:
    the run raises at the join on [Ref_name] and writes no summary, whereas
    the [summarize] command, given the original table, succeeds. *)
Theorem pipeline_summarizer_reads_edge_list :
  let ns := Scenario.all_args Scenario.default_min_ani Scenario.default_min_cov in
  let run := Main.main Scenario.E ns (Scenario.start ["skani"; "mcxload"; "mcl"]) in
  let again := Main.main Scenario.E (Scenario.summarize_args "skani_ANI.tsv") run.2 in
  run.1 = Err (ColumnNotFoundError "Ref_name")
  /\ fs run.2 !! "/work/skani_ANI.tsv" = Some Scenario.skani_table
  /\ fs run.2 !! "/work/skani_processed.tsv"
     = Some [ [CStr "g1"; CStr "g2"; CNum (7840 # 10000)];
              [CStr "g2"; CStr "g1"; CNum (7840 # 10000)];
              [CStr "g3"; CStr "g4"; CNum (3840 # 10000)] ]
  /\ fs run.2 !! "/work/ani_per_cluster.tsv" = None
  /\ again.1 = Ok tt
  /\ fs again.2 !! "/work/ani_per_cluster.tsv"
     = Some [ [CStr "cluster"; CStr "avg_ANI"];
              [CNum 1; CNum 96]; [CNum 0; CNum (296 # 3)] ].
Proof. vm_compute. repeat split. Qed.

(** ** Side remarks *)

(** The line-level loop used in the model of [main] is the byte-level loop
    of the source on files made of terminated lines. *)
Lemma concatenate_unlines (files : list (list (list ascii))) :
  Forall (Forall Concat.no_newline) files ->
  Concat.concatenate (List.map Concat.unlines files)
  = Concat.unlines (Concat.concatenate_lines files).
Proof.
  destruct 1 as [| first rest _ Hrest]; [done |]. simpl.
  rewrite concatenate_cons, concatenate_lines_cons, unlines_app. f_equal.
  induction Hrest as [| f rest Hf _ IH]; [done |]. simpl.
  rewrite unlines_app, IH. f_equal.
  destruct Hf as [| h b Hh _]; [done |]. by apply after_readline_unlines.
Qed.

(** The stand-alone script rescales by 100 only: its third column is a
    hundred times the weight the package writes. *)
Lemma legacy_weight_is_hundredfold (r : SkaniRow) :
  (Legacy.main_weight r
   == 100 * SkaniPreprocessor.edge_weights
              (SkaniPreprocessor.directional_min_af r) r)%Q.
Proof.
  unfold Legacy.main_weight, SkaniPreprocessor.edge_weights,
    SkaniPreprocessor.directional_min_af, SkaniPreprocessor.scale.
  change (inject_Z (100 ^ 2)) with 10000%Q. field.
Qed.

(** * Further properties of the code *)

(** ** The preprocessor beyond the claims *)

Lemma filter_sublist_impl {A} (p q : A -> bool) (l : list A) :
  (forall x, p x = true -> q x = true) ->
  sublist (List.filter p l) (List.filter q l).
Proof.
  intros Himp. induction l as [| x l IH]; simpl; [constructor |].
  destruct (p x) eqn:Hp.
  - rewrite (Himp x Hp). by constructor.
  - destruct (q x); [by constructor | done].
Qed.

Lemma filter_sublist_self {A} (p : A -> bool) (l : list A) :
  sublist (List.filter p l) l.
Proof.
  induction l as [| x l IH]; simpl; [constructor |].
  destruct (p x); by constructor.
Qed.

Lemma filter_idem {A} (p : A -> bool) (l : list A) :
  List.filter p (List.filter p l) = List.filter p l.
Proof.
  induction l as [| x l IH]; simpl; [done |].
  destruct (p x) eqn:Hp; simpl; [by rewrite Hp, IH | done].
Qed.

Lemma kept_weaken (a a' b b' : Q) (r : SkaniRow) :
  (a <= a')%Q -> (b <= b')%Q -> kept a' b' r -> kept a b r.
Proof.
  intros Ha Hb (Hne & Hani & Haf). split; [done |]. split.
  - by eapply Qle_trans.
  - destruct Haf; [left | right]; by eapply Qle_trans.
Qed.

(** X1. Raising a threshold can only remove rows: the rows kept under the
    stricter thresholds are, in the same order, among those kept under the
    laxer ones. *)
Theorem preprocess_monotone (a a' b b' : Q) (data : list SkaniRow) :
  (a <= a')%Q -> (b <= b')%Q ->
  sublist (SkaniPreprocessor._preprocess a' b' data)
          (SkaniPreprocessor._preprocess a b data).
Proof.
  intros Ha Hb. unfold SkaniPreprocessor._preprocess.
  apply filter_sublist_impl. intros r Hr.
  apply row_filter_kept. apply row_filter_kept in Hr.
  by apply (kept_weaken a a' b b').
Qed.

Lemma preprocess_monotone_witness :
  let r := mkSkaniRow "g1" "g2" 96 60 40 in
  let r' := mkSkaniRow "g2" "g3" 99 90 95 in
  ((95 <= 98)%Q /\ (50 <= 80)%Q)
  /\ sublist (SkaniPreprocessor._preprocess 98 80 [r; r'])
             (SkaniPreprocessor._preprocess 95 50 [r; r']).
Proof.
  intros r r'.
  assert (H1 : (95 <= 98)%Q) by (unfold Qle; simpl; lia).
  assert (H2 : (50 <= 80)%Q) by (unfold Qle; simpl; lia).
  split; [by split |].
  exact (preprocess_monotone 95 98 50 80 [r; r'] H1 H2).
Defined.

(** X2. The edge list holds one edge per kept row, in the order of the
    input and under the row's two names; filtering again changes nothing. *)
Theorem edge_list_follows_input (min_ani min_af : Q) (data : list SkaniRow) :
  List.map fst
    (SkaniPreprocessor.save (SkaniPreprocessor.process min_ani min_af data))
  = List.map (fun r => (Ref_name r, Query_name r))
      (SkaniPreprocessor._preprocess min_ani min_af data)
  /\ sublist (SkaniPreprocessor._preprocess min_ani min_af data) data
  /\ SkaniPreprocessor._preprocess min_ani min_af
       (SkaniPreprocessor._preprocess min_ani min_af data)
     = SkaniPreprocessor._preprocess min_ani min_af data.
Proof.
  split; [| split].
  - unfold SkaniPreprocessor.save, SkaniPreprocessor.process,
      SkaniPreprocessor._create_edge_weights.
    by rewrite !List.map_map.
  - apply filter_sublist_self.
  - apply filter_idem.
Qed.

(** X3. Direction does not matter: a comparison and the same comparison
    seen from the other genome are kept or dropped together and get the
    same weight. *)
Theorem reverse_row_same_fate (min_ani min_af : Q) (data : list SkaniRow)
    (r : SkaniRow) :
  (kept min_ani min_af (reverse_row r) <-> kept min_ani min_af r)
  /\ (In (reverse_row r) data ->
      In r (SkaniPreprocessor._preprocess min_ani min_af data) ->
      In (reverse_row r) (SkaniPreprocessor._preprocess min_ani min_af data))
  /\ (SkaniPreprocessor.edge_weights
        (SkaniPreprocessor.directional_min_af (reverse_row r)) (reverse_row r)
      == SkaniPreprocessor.edge_weights
           (SkaniPreprocessor.directional_min_af r) r)%Q.
Proof.
  assert (Hk : kept min_ani min_af (reverse_row r) <-> kept min_ani min_af r).
  { unfold kept, reverse_row. simpl. split; intros (Hne & Ha & Hf);
      (split; [congruence |]; split; [done | tauto]). }
  split; [exact Hk |]. split.
  - intros Hin Hr. apply preprocess_In. split; [done |].
    apply Hk. by apply preprocess_In in Hr as [_ ?].
  - unfold SkaniPreprocessor.edge_weights,
      SkaniPreprocessor.directional_min_af, reverse_row. simpl.
    by rewrite Q.min_comm.
Qed.

Lemma reverse_row_same_fate_witness :
  let r := mkSkaniRow "g1" "g2" 98 90 80 in
  let data := [r; reverse_row r] in
  (In (reverse_row r) data /\ In r (SkaniPreprocessor._preprocess 95 50 data))
  /\ In (reverse_row r) (SkaniPreprocessor._preprocess 95 50 data).
Proof.
  intros r data.
  assert (H1 : In (reverse_row r) data) by (right; left; reflexivity).
  assert (H2 : In r (SkaniPreprocessor._preprocess 95 50 data))
    by (left; reflexivity).
  split; [by split |].
  exact (proj1 (proj2 (reverse_row_same_fate 95 50 data r)) H1 H2).
Defined.

Lemma Qdiv_by_100 (x : Q) : (x / 100 == x * (1 # 100))%Q.
Proof. reflexivity. Qed.

Lemma Qdiv_by_10000 (x : Q) : (x / 10000 == x * (1 # 10000))%Q.
Proof. reflexivity. Qed.

(** X5. The stand-alone script [preprocess.py] writes a hundred times the
    weight of the package: its third column ranges over [0,100], not
    [0,1]. *)
Theorem legacy_weight_range (r : SkaniRow) :
  percent (ANI r) -> percent (Align_fraction_ref r) ->
  percent (Align_fraction_query r) ->
  (Legacy.main_weight r
   == 100 * SkaniPreprocessor.edge_weights
              (SkaniPreprocessor.directional_min_af r) r)%Q
  /\ percent (Legacy.main_weight r).
Proof.
  intros [Ha0 Ha1] [Hr0 Hr1] [Hq0 Hq1].
  split; [apply legacy_weight_is_hundredfold |].
  unfold Legacy.main_weight, percent. rewrite Qdiv_by_100.
  destruct (Q.min_spec (Align_fraction_query r) (Align_fraction_ref r))
    as [[Hlt ->] | [Hle ->]]; split; nra.
Qed.

Lemma legacy_weight_range_witness :
  let r := mkSkaniRow "g1" "g2" 100 100 100 in
  (percent 100 /\ percent 100 /\ percent 100)
  /\ (Legacy.main_weight r == 100)%Q /\ percent (Legacy.main_weight r).
Proof.
  intros r.
  assert (H : percent 100) by (split; unfold Qle; simpl; lia).
  split; [by repeat split |].
  destruct (legacy_weight_range r H H H) as [Heq Hp].
  split; [| exact Hp]. rewrite Heq. reflexivity.
Defined.

(** X6. The first script [_preprocess.py] applies no threshold: it keeps
    every row that is not a self comparison, and weighs it with the larger
    aligned fraction: the weight it writes is [af * ANI / 100] for an [af]
    that is one of the two aligned fractions of the row and not below
    either.  So its weight is never below that of [preprocess.py] and
    stays within [0,100] for percentages. *)
Theorem first_script_keeps_all_pairs (data : list SkaniRow) (r : SkaniRow) :
  (In r (LegacyMax.main_filter data)
   <-> In r data /\ Ref_name r <> Query_name r)
  /\ (List.map fst (LegacyMax.main data)
      = List.map (fun r => (Ref_name r, Query_name r))
          (LegacyMax.main_filter data))
  /\ (forall ref query w,
        In (ref, query, w) (LegacyMax.main data) ->
        exists r' af,
          In r' data /\ Ref_name r' <> Query_name r'
          /\ ref = Ref_name r' /\ query = Query_name r'
          /\ ((af == Align_fraction_ref r')%Q
              \/ (af == Align_fraction_query r')%Q)
          /\ (Align_fraction_ref r' <= af)%Q
          /\ (Align_fraction_query r' <= af)%Q
          /\ (w == af * ANI r' / 100)%Q)
  /\ ((0 <= ANI r)%Q -> (Legacy.main_weight r <= LegacyMax.main_weight r)%Q)
  /\ (percent (ANI r) -> percent (Align_fraction_ref r) ->
      percent (Align_fraction_query r) -> percent (LegacyMax.main_weight r)).
Proof.
  assert (Hfilter : forall x, In x (LegacyMax.main_filter data)
                              <-> In x data /\ Ref_name x <> Query_name x).
  { intros x. unfold LegacyMax.main_filter. rewrite filter_In, negb_true_iff.
    by rewrite String.eqb_neq. }
  split; [apply Hfilter |]. split; [| split; [| split]].
  - unfold LegacyMax.main. by rewrite List.map_map.
  - intros ref query w Hin. unfold LegacyMax.main in Hin.
    apply in_map_iff in Hin as (r' & [= <- <- <-] & Hr').
    apply Hfilter in Hr' as [Hd Hne].
    exists r', (LegacyMax.main_AF r').
    split; [done |]. split; [done |]. split; [done |]. split; [done |].
    unfold LegacyMax.main_weight, LegacyMax.main_AF.
    split; [| split; [| split]].
    + destruct (Q.max_spec (Align_fraction_query r') (Align_fraction_ref r'))
        as [[_ H] | [_ H]]; [by left | by right].
    + apply Q.le_max_r.
    + apply Q.le_max_l.
    + reflexivity.
  - intros Ha. unfold Legacy.main_weight, LegacyMax.main_weight,
      LegacyMax.main_AF. rewrite !Qdiv_by_100.
    pose proof (Q.le_min_l (Align_fraction_query r) (Align_fraction_ref r)).
    pose proof (Q.le_max_l (Align_fraction_query r) (Align_fraction_ref r)).
    nra.
  - intros [Ha0 Ha1] [Hr0 Hr1] [Hq0 Hq1].
    unfold LegacyMax.main_weight, LegacyMax.main_AF, percent.
    rewrite Qdiv_by_100.
    destruct (Q.max_spec (Align_fraction_query r) (Align_fraction_ref r))
      as [[Hlt ->] | [Hle ->]]; split; nra.
Qed.

Lemma first_script_keeps_all_pairs_witness :
  let r := mkSkaniRow "g1" "g2" 50 10 20 in
  ((0 <= 50)%Q /\ percent 50 /\ percent 10 /\ percent 20
   /\ In ("g1", "g2", LegacyMax.main_weight r) (LegacyMax.main [r]))
  /\ In r (LegacyMax.main_filter [r])
  /\ (exists r' af,
        In r' [r] /\ (Align_fraction_ref r' <= af)%Q
        /\ (Align_fraction_query r' <= af)%Q
        /\ (LegacyMax.main_weight r == af * ANI r' / 100)%Q)
  /\ (Legacy.main_weight r <= LegacyMax.main_weight r)%Q
  /\ percent (LegacyMax.main_weight r).
Proof.
  intros r.
  assert (H0 : (0 <= 50)%Q) by (unfold Qle; simpl; lia).
  assert (Ha : percent 50) by (split; unfold Qle; simpl; lia).
  assert (Hr : percent 10) by (split; unfold Qle; simpl; lia).
  assert (Hq : percent 20) by (split; unfold Qle; simpl; lia).
  assert (He : In ("g1", "g2", LegacyMax.main_weight r) (LegacyMax.main [r]))
    by (left; reflexivity).
  split; [by repeat split |].
  destruct (first_script_keeps_all_pairs [r] r) as (Hf & _ & Hw & Hle & Hp).
  split; [| split; [| split]].
  - apply Hf. split; [by left | discriminate].
  - destruct (Hw _ _ _ He) as (r' & af & H1 & _ & _ & _ & _ & H2 & H3 & H4).
    by exists r', af.
  - exact (Hle H0).
  - exact (Hp Ha Hr Hq).
Defined.

(** ** Lines of the clusters file *)

Lemma rstrip_no_space (s : string) : no_space s = true -> rstrip s = s.
Proof.
  induction s as [| c s IH]; simpl; [done |].
  intros [Hc Hs]%andb_true_iff. rewrite (IH Hs).
  destruct s; [| done]. apply negb_true_iff in Hc. by rewrite Hc.
Qed.

Lemma rstrip_all_space (s : string) : all_space s = true -> rstrip s = EmptyString.
Proof.
  induction s as [| c s IH]; simpl; [done |].
  intros [Hc Hs]%andb_true_iff. by rewrite (IH Hs), Hc.
Qed.

Lemma rstrip_app_blank (s t : string) :
  rstrip t = EmptyString -> rstrip (s +:+ t) = rstrip s.
Proof.
  intros Ht. induction s as [| c s IH]; simpl; [done |]. by rewrite IH.
Qed.

Lemma rstrip_app_nonblank (s t : string) :
  rstrip t <> EmptyString -> rstrip (s +:+ t) = s +:+ rstrip t.
Proof.
  intros Ht. induction s as [| c s IH]; [reflexivity |].
  change (String c s +:+ t) with (String c (s +:+ t)).
  change (String c s +:+ rstrip t) with (String c (s +:+ rstrip t)).
  simpl. rewrite IH.
  destruct (s +:+ rstrip t) eqn:Hs; [| done].
  destruct s; [done | discriminate].
Qed.

Lemma split_tab_nonempty (s : string) : split_tab s <> [].
Proof.
  induction s as [| c s IH]; simpl; [done |].
  destruct (Ascii.eqb c tab); [done |]. by destruct (split_tab s).
Qed.

Lemma tab_is_space : is_space tab = true.
Proof. reflexivity. Qed.

Lemma split_tab_no_space (s : string) : no_space s = true -> split_tab s = [s].
Proof.
  induction s as [| c s IH]; simpl; [done |].
  intros [Hc Hs]%andb_true_iff. rewrite (IH Hs).
  destruct (Ascii.eqb_spec c tab) as [-> | _]; [| done].
  by rewrite tab_is_space in Hc.
Qed.

Lemma split_tab_app (s t : string) :
  no_space s = true ->
  split_tab (s +:+ String tab t) = s :: split_tab t.
Proof.
  induction s as [| c s IH]; simpl; [done |].
  intros [Hc Hs]%andb_true_iff. rewrite (IH Hs).
  destruct (Ascii.eqb_spec c tab) as [-> | _]; [| done].
  by rewrite tab_is_space in Hc.
Qed.

Lemma join_tab_cons (name : string) (names : list string) :
  names <> [] ->
  join_tab (name :: names) = name +:+ String tab (join_tab names).
Proof. by destruct names. Qed.

Lemma split_join_tab (names : list string) :
  names <> [] -> Forall clean_name names ->
  split_tab (join_tab names) = names.
Proof.
  intros Hne Hall. induction Hall as [| n names [_ Hn] Hall IH]; [done |].
  destruct names as [| n' names'].
  - simpl. by apply split_tab_no_space.
  - rewrite join_tab_cons by done. rewrite split_tab_app by done.
    by rewrite IH.
Qed.

Lemma rstrip_join_tab (names : list string) :
  names <> [] -> Forall clean_name names ->
  rstrip (join_tab names) = join_tab names /\ join_tab names <> EmptyString.
Proof.
  intros Hne Hall. induction Hall as [| n names [Hn0 Hn] Hall IH]; [done |].
  destruct names as [| n' names'].
  - simpl. split; [by apply rstrip_no_space | done].
  - rewrite join_tab_cons by done.
    destruct IH as [IH1 IH2]; [done |].
    assert (Htail : rstrip (String tab (join_tab (n' :: names')))
                    = String tab (join_tab (n' :: names'))).
    { change (rstrip (String tab ?s))
        with (match rstrip s with
              | EmptyString =>
                  if is_space tab then EmptyString else String tab EmptyString
              | t => String tab t
              end).
      rewrite IH1. by destruct (join_tab (n' :: names')). }
    split.
    + rewrite rstrip_app_nonblank; by rewrite Htail.
    + by destruct n.
Qed.

Lemma load_cluster_line (names : list string) :
  names <> [] -> Forall clean_name names ->
  split_tab (rstrip (cluster_line names)) = names.
Proof.
  intros Hne Hall. unfold cluster_line.
  rewrite rstrip_app_blank by done.
  destruct (rstrip_join_tab names Hne Hall) as [-> _].
  by apply split_join_tab.
Qed.

Lemma load_empty_line :
  split_tab (rstrip (cluster_line [])) = [EmptyString].
Proof. reflexivity. Qed.

(** X7. Reading back a clusters file written one cluster per line, with
    clean member names separated by tabs, gives the clusters of at least
    [min_cluster_size] members, unchanged and in order ([min_cluster_size]
    at least 2, as by default). *)
Theorem iload_reads_back_clusters (clusters : list (list string)) (m : Z) :
  (2 <= m)%Z ->
  Forall (Forall clean_name) clusters ->
  MclUtils.iload (List.map cluster_line clusters) m
  = List.filter (fun c => (m <=? Z.of_nat (length c))%Z) clusters.
Proof.
  intros Hm Hall. unfold MclUtils.iload. rewrite List.map_map.
  induction Hall as [| c clusters Hc _ IH]; simpl; [done |].
  rewrite IH. destruct c as [| n c'].
  - rewrite load_empty_line. simpl.
    by rewrite !(proj2 (Z.leb_gt _ _)) by lia.
  - by rewrite load_cluster_line.
Qed.

Lemma iload_reads_back_clusters_witness :
  let clusters := [["g1"; "g2"]; ["g5"]; []; ["g3"; "g4"; "g6"]] in
  ((2 <= 2)%Z /\ Forall (Forall clean_name) clusters)
  /\ MclUtils.iload (List.map cluster_line clusters) 2
     = [["g1"; "g2"]; ["g3"; "g4"; "g6"]].
Proof.
  intros clusters.
  assert (Hm : (2 <= 2)%Z) by lia.
  assert (Hall : Forall (Forall clean_name) clusters).
  { repeat constructor; discriminate. }
  split; [by split |].
  exact (iload_reads_back_clusters clusters 2 Hm Hall).
Defined.

(** X8. With [min_cluster_size] at most 1 nothing is dropped: every line
    yields a cluster, a blank line the cluster of one empty name. *)
Theorem iload_small_minimum_keeps_every_line (file : list string) (m : Z) :
  (m <= 1)%Z ->
  MclUtils.iload file m
  = List.map (fun line => split_tab (rstrip line)) file
  /\ (forall blank, all_space blank = true ->
                    MclUtils.iload [blank] m = [[EmptyString]]).
Proof.
  intros Hm. split.
  - unfold MclUtils.iload.
    induction file as [| line file IH]; simpl; [done |].
    rewrite IH.
    pose proof (split_tab_nonempty (rstrip line)) as Hne.
    destruct (split_tab (rstrip line)) as [| f fs] eqn:Hs; [done |].
    simpl. by rewrite (proj2 (Z.leb_le _ _)) by lia.
  - intros blank Hb. unfold MclUtils.iload. simpl.
    rewrite (rstrip_all_space blank Hb). simpl.
    by rewrite (proj2 (Z.leb_le _ _)) by lia.
Qed.

Lemma iload_small_minimum_keeps_every_line_witness :
  let file := [String newline EmptyString; cluster_line ["g1"]] in
  ((1 <= 1)%Z /\ all_space (String newline EmptyString) = true)
  /\ MclUtils.iload file 1 = [[EmptyString]; ["g1"]]
  /\ MclUtils.iload [String newline EmptyString] 1 = [[EmptyString]].
Proof.
  intros file.
  assert (Hm : (1 <= 1)%Z) by lia.
  assert (Hb : all_space (String newline EmptyString) = true) by reflexivity.
  split; [by split |].
  destruct (iload_small_minimum_keeps_every_line file 1 Hm) as [Hall _].
  destruct (iload_small_minimum_keeps_every_line [] 1 Hm) as [_ Hblank].
  split; [exact Hall | exact (Hblank _ Hb)].
Defined.

(** X9. Blanks at the end of a line, tabs included, are not members: a
    line loads as the same line without them, and a line of blanks only is
    never a cluster once two members are required. *)
Theorem iload_ignores_trailing_blanks (file : list string) (blank : string)
    (m : Z) :
  all_space blank = true ->
  MclUtils.iload (List.map (fun line => line +:+ blank) file) m
  = MclUtils.iload file m
  /\ ((2 <= m)%Z -> MclUtils.iload [blank] m = []).
Proof.
  intros Hb. pose proof (rstrip_all_space blank Hb) as Hr. split.
  - unfold MclUtils.iload. rewrite List.map_map. f_equal.
    apply List.map_ext. intros line. by rewrite rstrip_app_blank.
  - intros Hm. unfold MclUtils.iload. simpl. rewrite Hr. simpl.
    by rewrite (proj2 (Z.leb_gt _ _)) by lia.
Qed.

Lemma iload_ignores_trailing_blanks_witness :
  let blank := String tab (String tab (String newline EmptyString)) in
  (all_space blank = true /\ (2 <= 2)%Z)
  /\ MclUtils.iload ["g1" +:+ blank; "g1" +:+ String tab "g2" +:+ blank] 2
     = MclUtils.iload ["g1"; "g1" +:+ String tab "g2"] 2
  /\ MclUtils.iload [blank] 2 = [].
Proof.
  intros blank.
  assert (Hb : all_space blank = true) by reflexivity.
  assert (Hm : (2 <= 2)%Z) by lia.
  split; [by split |].
  destruct (iload_ignores_trailing_blanks
              ["g1"; "g1" +:+ String tab "g2"] blank 2 Hb) as [Hsame Hnone].
  split; [exact Hsame | exact (Hnone Hm)].
Defined.

(** ** The mapping from members to cluster ids *)

(** X10. A name is in the mapping exactly when it occurs in a kept
    cluster, and every id in the mapping is the position of a kept
    cluster. *)
Theorem mapping_domain_is_members (file : list string) (m : Z) (name : string) :
  (is_Some (MclUtils._map_members_to_cluster_ids file m !! name)
   <-> exists c, c ∈ MclUtils.iload file m /\ name ∈ c)
  /\ (forall id,
        MclUtils._map_members_to_cluster_ids file m !! name = Some id ->
        id < length (MclUtils.iload file m)).
Proof.
  unfold MclUtils._map_members_to_cluster_ids.
  pose proof (member2cluster_of_spec (MclUtils.iload file m) name) as Hspec.
  destruct (MclUtils.member2cluster_of (MclUtils.iload file m) !! name)
    as [id |] eqn:Hm.
  - destruct Hspec as [(c & Hc & Hn) _]. split.
    + split; [| by eexists]. intros _. exists c. split; [| done].
      by eapply list_elem_of_lookup_2.
    + intros id' [= <-]. by eapply lookup_lt_Some.
  - split; [| done]. split; [by intros [? ?] |].
    intros (c & Hc & Hn). by destruct (Hspec c Hc).
Qed.

(** X11. When no member belongs to two kept clusters, as in the output of
    the clustering tool, a name is mapped to [id] exactly when the kept
    cluster number [id] holds it. *)
Theorem mapping_of_disjoint_clusters (file : list string) (m : Z)
    (name : string) (id : nat) :
  disjoint_clusters (MclUtils.iload file m) ->
  MclUtils._map_members_to_cluster_ids file m !! name = Some id
  <-> exists c, MclUtils.iload file m !! id = Some c /\ name ∈ c.
Proof.
  intros Hdisj. unfold MclUtils._map_members_to_cluster_ids.
  pose proof (member2cluster_of_spec (MclUtils.iload file m) name) as Hspec.
  destruct (MclUtils.member2cluster_of (MclUtils.iload file m) !! name)
    as [id' |] eqn:Hm.
  - destruct Hspec as [(c & Hc & Hn) _]. split.
    + intros [= <-]. by exists c.
    + intros (c' & Hc' & Hn'). f_equal. by eapply Hdisj.
  - split; [done |]. intros (c & Hc & Hn). exfalso.
    apply (Hspec c); [by eapply list_elem_of_lookup_2 | done].
Qed.

Lemma mapping_of_disjoint_clusters_witness :
  let file := Scenario.clusters_lines in
  disjoint_clusters (MclUtils.iload file 2)
  /\ MclUtils._map_members_to_cluster_ids file 2 !! "g4" = Some 1.
Proof.
  intros file.
  assert (Hd : disjoint_clusters (MclUtils.iload file 2)).
  { intros i j c c' name Hi Hj Hn Hn'.
    change (MclUtils.iload file 2) with [["g1"; "g2"]; ["g3"; "g4"]] in Hi, Hj.
    destruct i as [| [| i]], j as [| [| j]]; simpl in Hi, Hj;
      try discriminate; try reflexivity;
      injection Hi as <-; injection Hj as <-;
      apply list_elem_of_In in Hn, Hn'; simpl in Hn, Hn';
      destruct Hn as [<- | [<- | []]];
      destruct Hn' as [H | [H | []]]; discriminate H. }
  split; [exact Hd |].
  apply (mapping_of_disjoint_clusters file 2 "g4" 1 Hd).
  exists ["g3"; "g4"]. split; [reflexivity |].
  apply list_elem_of_In. right. left. reflexivity.
Defined.

(** ** The join beyond the claims *)

Lemma join_total {A} (key : A -> result string) (left : list A)
    (clusters : list (string * nat)) :
  Forall (fun r => is_ok (key r) = true) left ->
  exists joined, ClusterSummarizer.join key left clusters = Ok joined.
Proof.
  intros Hall. unfold ClusterSummarizer.join.
  assert (exists matched,
             Polars.traverse
               (fun r =>
                  k ← key r;
                  mret (List.map (fun nc => (r, nc.2))
                          (List.filter (fun nc => String.eqb nc.1 k) clusters)))
               left = Ok matched) as [matched Hm].
  { induction Hall as [| r left' Hr _ [matched IH]]; [by eexists |].
    destruct (key r) as [k |] eqn:Hk; [| done].
    eexists. apply traverse_Ok. constructor.
    - by rewrite Hk.
    - by apply traverse_Ok. }
  rewrite Hm. by eexists.
Qed.

(** X12. The rows the summarizer retains are exactly the rows of the file
    whose reference and query names are both in the mapping, with one and
    the same cluster id; a row with an unmapped name is dropped. *)
Theorem merge_retains_intra_cluster_rows
    (df : DataFrame) (file : list string) (m : Z)
    (s : ClusterSummarizer.t) (j : ClusterSummarizer.JoinedRow) :
  ClusterSummarizer._merge_cluster_ids df file m = Ok s ->
  In j (ClusterSummarizer.ani_data s)
  <-> exists i_ref i_query ref query,
        Polars.index_of "Ref_name" (columns df) = Some i_ref
        /\ Polars.index_of "Query_name" (columns df) = Some i_query
        /\ In (ClusterSummarizer.cells j) (rows df)
        /\ ClusterSummarizer.cells j !! i_ref = Some (CStr ref)
        /\ ClusterSummarizer.cells j !! i_query = Some (CStr query)
        /\ MclUtils._map_members_to_cluster_ids file m !! ref
           = Some (ClusterSummarizer.Ref_cluster j)
        /\ MclUtils._map_members_to_cluster_ids file m !! query
           = Some (ClusterSummarizer.Query_cluster j)
        /\ ClusterSummarizer.Ref_cluster j = ClusterSummarizer.Query_cluster j.
Proof.
  intros Hs. rewrite (merge_cluster_ids_In df file m s j Hs).
  assert (Hget : forall col i row v,
             Polars.get_str col i row = Ok v <-> row !! i = Some (CStr v)).
  { intros col i row v. unfold Polars.get_str.
    destruct (row !! i) as [[x | x] |]; split; intros H; try done;
      by injection H as ->. }
  split; intros (i & i' & r & q & H1 & H2 & H3 & H4 & H5 & H6);
    exists i, i', r, q; repeat split; try tauto;
    first [ by eapply (proj1 (Hget _ _ _ _)) | by apply (proj2 (Hget _ _ _ _)) ].
Qed.

Lemma merge_retains_intra_cluster_rows_witness :
  let df := mkDataFrame (hd [] Scenario.skani_table) (tl Scenario.skani_table) in
  let j := ClusterSummarizer.mkJoinedRow
             [CStr "c.fna"; CStr "c.fna"; CNum 96; CNum 60; CNum 40;
              CStr "g3"; CStr "g4"] 1 1 in
  ClusterSummarizer._merge_cluster_ids df Scenario.clusters_lines 2
  = Ok Scenario.summarizer
  /\ In j (ClusterSummarizer.ani_data Scenario.summarizer).
Proof.
  intros df j.
  assert (Hs : ClusterSummarizer._merge_cluster_ids df Scenario.clusters_lines 2
               = Ok Scenario.summarizer) by (vm_compute; reflexivity).
  split; [exact Hs |].
  apply (merge_retains_intra_cluster_rows df Scenario.clusters_lines 2 _ j Hs).
  exists 5, 6, "g3", "g4". repeat split; try reflexivity.
  do 3 right. left. reflexivity.
Defined.

(** X14. The join needs the two name columns.  Given a clusters file with
    at least one kept cluster: without a [Ref_name] column the join raises
    [ColumnNotFoundError]; with both columns, and a name in each of them
    on every row, it succeeds and leaves the columns of the table as they
    were. *)
Theorem merge_cluster_ids_outcome
    (df : DataFrame) (file : list string) (m : Z) :
  MclUtils.iload file m <> [] ->
  (Polars.index_of "Ref_name" (columns df) = None ->
   ClusterSummarizer._merge_cluster_ids df file m
   = Err (ColumnNotFoundError "Ref_name"))
  /\ (forall i_ref i_query,
        Polars.index_of "Ref_name" (columns df) = Some i_ref ->
        Polars.index_of "Query_name" (columns df) = Some i_query ->
        Forall (fun row => exists ref query,
                             row !! i_ref = Some (CStr ref)
                             /\ row !! i_query = Some (CStr query))
          (rows df) ->
        exists s, ClusterSummarizer._merge_cluster_ids df file m = Ok s
                  /\ ClusterSummarizer.ani_columns s = columns df).
Proof.
  intros _. split.
  - intros Hi. unfold ClusterSummarizer._merge_cluster_ids, Polars.column_index.
    by rewrite Hi.
  - intros i_ref i_query Hi Hq Hrows.
    unfold ClusterSummarizer._merge_cluster_ids, Polars.column_index.
    rewrite Hi, Hq. cbn [mbind result_bind].
    set (records := map_to_list (MclUtils._map_members_to_cluster_ids file m)).
    destruct (join_total (Polars.get_str "Ref_name" i_ref) (rows df) records)
      as [by_ref Hbr].
    { eapply Forall_impl; [exact Hrows |]. intros row (r & q & Hr & _).
      unfold Polars.get_str. by rewrite Hr. }
    rewrite Hbr. cbn [mbind result_bind].
    destruct (join_total
                (fun rc : list cell * nat =>
                   Polars.get_str "Query_name" i_query rc.1) by_ref records)
      as [by_query Hbq].
    { apply Forall_forall. intros [row c] Hin.
      apply list_elem_of_In in Hin.
      apply (join_elem_of _ _ _ _ _ _ Hbr) in Hin as [Hin _].
      rewrite Forall_forall in Hrows.
      apply list_elem_of_In in Hin.
      destruct (Hrows row Hin) as (r & q & _ & Hq').
      simpl. unfold Polars.get_str. by rewrite Hq'. }
    rewrite Hbq. cbn [mbind result_bind]. by eexists.
Qed.

Lemma merge_cluster_ids_outcome_witness :
  let df := mkDataFrame (hd [] Scenario.skani_table) (tl Scenario.skani_table) in
  let edges := mkDataFrame [CStr "g1"; CStr "g2"; CNum 1] [] in
  (MclUtils.iload Scenario.clusters_lines 2 <> []
   /\ Polars.index_of "Ref_name" (columns edges) = None
   /\ Polars.index_of "Ref_name" (columns df) = Some 5
   /\ Polars.index_of "Query_name" (columns df) = Some 6)
  /\ ClusterSummarizer._merge_cluster_ids edges Scenario.clusters_lines 2
     = Err (ColumnNotFoundError "Ref_name")
  /\ exists s, ClusterSummarizer._merge_cluster_ids df Scenario.clusters_lines 2
               = Ok s
               /\ ClusterSummarizer.ani_columns s = columns df.
Proof.
  intros df edges.
  assert (Hne : MclUtils.iload Scenario.clusters_lines 2 <> [])
    by (vm_compute; discriminate).
  split; [by repeat split |]. split.
  - exact (proj1 (merge_cluster_ids_outcome edges Scenario.clusters_lines 2 Hne)
             eq_refl).
  - apply (proj2 (merge_cluster_ids_outcome df Scenario.clusters_lines 2 Hne) 5 6
             eq_refl eq_refl).
    repeat constructor; eexists _, _; split; reflexivity.
Defined.

(** ** The size of the summary *)

Lemma summary_keys_NoDup (data : list (nat * Q)) :
  NoDup (List.map fst
           (ClusterSummarizer.sort_by_avg (ClusterSummarizer.groupby_mean data))).
Proof.
  eapply NoDup_Permutation_proper.
  - apply Permutation_map, merge_sort_Permutation.
  - rewrite groupby_mean_keys. apply NoDup_remove_dups.
Qed.

Lemma NoDup_bounded_length (l : list nat) (n : nat) :
  NoDup l -> Forall (fun k => k < n) l -> length l <= n.
Proof.
  intros Hnd Hall.
  assert (Hsub : l ⊆+ seq 0 n).
  { apply NoDup_submseteq; [done |]. intros k Hk.
    rewrite Forall_forall in Hall. apply elem_of_seq. specialize (Hall k Hk).
    lia. }
  apply submseteq_length in Hsub. by rewrite length_seq in Hsub.
Qed.

Lemma remove_dups_length_le {A} `{EqDecision A} (l : list A) :
  length (remove_dups l) <= length l.
Proof.
  induction l as [| x l IH]; simpl; [done |].
  case_decide; simpl; lia.
Qed.

(** X16. The summary has one row per cluster id, so it has at most as many
    rows as there are kept clusters, and at most as many as there are
    retained rows. *)
Theorem summary_has_at_most_one_row_per_cluster
    (df : DataFrame) (file : list string) (m : Z)
    (s : ClusterSummarizer.t) (summary : list (nat * Q)) :
  ClusterSummarizer._merge_cluster_ids df file m = Ok s ->
  ClusterSummarizer.average_ANI_per_cluster s = Ok summary ->
  NoDup (List.map fst summary)
  /\ length summary <= length (MclUtils.iload file m)
  /\ length summary <= length (ClusterSummarizer.ani_data s).
Proof.
  intros Hs Hsum.
  assert (Hbound : Forall (fun k => k < length (MclUtils.iload file m))
                     (List.map fst summary)).
  { apply Forall_forall. intros k Hk.
    apply list_elem_of_In, in_map_iff in Hk as ([k' avg] & <- & Hin).
    destruct (average_ANI_per_cluster_keys s summary k' avg Hsum Hin)
      as (j & Hj & <-).
    apply (merge_cluster_ids_In df file m s j Hs) in Hj
      as (_ & _ & ref & _ & _ & _ & _ & _ & _ & Hm & _).
    destruct (member2cluster_lookup_cluster file m ref _ Hm) as (c & Hc & _).
    by eapply lookup_lt_Some. }
  unfold ClusterSummarizer.average_ANI_per_cluster in Hsum.
  apply bind_Ok in Hsum as (i & _ & Hsum).
  apply bind_Ok in Hsum as (data & Hd & [= <-]).
  pose proof (summary_keys_NoDup data) as Hnd.
  split; [exact Hnd |]. split.
  - rewrite <- (length_map fst). by apply NoDup_bounded_length.
  - apply traverse_Ok, Forall2_length in Hd. rewrite Hd.
    unfold ClusterSummarizer.sort_by_avg.
    rewrite (Permutation_length (merge_sort_Permutation _ _)).
    unfold ClusterSummarizer.groupby_mean. rewrite length_map.
    etrans; [apply remove_dups_length_le |]. by rewrite length_map.
Qed.

Lemma summary_has_at_most_one_row_per_cluster_witness :
  let df := mkDataFrame (hd [] Scenario.skani_table) (tl Scenario.skani_table) in
  (ClusterSummarizer._merge_cluster_ids df Scenario.clusters_lines 2
   = Ok Scenario.summarizer
   /\ ClusterSummarizer.average_ANI_per_cluster Scenario.summarizer
      = Ok [(1, 96%Q); (0, 296 # 3)])
  /\ length [(1, 96%Q); (0, 296 # 3)]
     <= length (MclUtils.iload Scenario.clusters_lines 2).
Proof.
  intros df.
  assert (Hs : ClusterSummarizer._merge_cluster_ids df Scenario.clusters_lines 2
               = Ok Scenario.summarizer) by (vm_compute; reflexivity).
  assert (Hsum : ClusterSummarizer.average_ANI_per_cluster Scenario.summarizer
                 = Ok [(1, 96%Q); (0, 296 # 3)]) by (vm_compute; reflexivity).
  split; [by split |].
  exact (proj1 (proj2 (summary_has_at_most_one_row_per_cluster
                         df Scenario.clusters_lines 2 _ _ Hs Hsum))).
Defined.

(** X17. The file the preprocessor saves cannot be summarized, whatever
    the data, the thresholds and the clusters: it has no header, so its
    first edge is taken for the column names, and the summarizer raises
    (or finds no data at all when no row was kept). *)
Theorem summarizer_cannot_read_preprocessor_output
    (min_ani min_af : Q) (data : list SkaniRow) (clusters_file : list string) :
  is_ok (s ← ClusterSummarizer.init
               (Polars.write_edges
                  (SkaniPreprocessor.save
                     (SkaniPreprocessor.process min_ani min_af data)))
               clusters_file;
         ClusterSummarizer.summarize_and_save s) = false
  /\ (SkaniPreprocessor._preprocess min_ani min_af data = [] ->
      ClusterSummarizer.init
        (Polars.write_edges
           (SkaniPreprocessor.save
              (SkaniPreprocessor.process min_ani min_af data)))
        clusters_file
      = Err NoDataError).
Proof.
  split; [apply summarizer_rejects_edge_list |].
  intros Hnone. unfold SkaniPreprocessor.process. by rewrite Hnone.
Qed.

Lemma summarizer_cannot_read_preprocessor_output_witness :
  let r := mkSkaniRow "g1" "g1" 100 100 100 in
  SkaniPreprocessor._preprocess 95 50 [r] = []
  /\ ClusterSummarizer.init
       (Polars.write_edges
          (SkaniPreprocessor.save (SkaniPreprocessor.process 95 50 [r])))
       Scenario.clusters_lines
     = Err NoDataError.
Proof.
  intros r.
  assert (H : SkaniPreprocessor._preprocess 95 50 [r] = []) by reflexivity.
  split; [exact H |].
  exact (proj2 (summarizer_cannot_read_preprocessor_output
                  95 50 [r] Scenario.clusters_lines) H).
Defined.

(** X18. Two edge cases of the summary.  Without an [ANI] column the
    aggregation raises [ColumnNotFoundError], even when no row was
    retained; with the column and no retained row the summary is empty and
    the file written holds the header only. *)
Theorem summary_edge_cases (s : ClusterSummarizer.t) :
  (Polars.index_of "ANI" (ClusterSummarizer.ani_columns s) = None ->
   ClusterSummarizer.average_ANI_per_cluster s
   = Err (ColumnNotFoundError "ANI"))
  /\ (is_Some (Polars.index_of "ANI" (ClusterSummarizer.ani_columns s)) ->
      ClusterSummarizer.ani_data s = [] ->
      ClusterSummarizer.average_ANI_per_cluster s = Ok []
      /\ ClusterSummarizer.summarize_and_save s
         = Ok [[CStr "cluster"; CStr "avg_ANI"]]).
Proof.
  unfold ClusterSummarizer.summarize_and_save,
    ClusterSummarizer.average_ANI_per_cluster, Polars.column_index.
  split.
  - intros Hi. by rewrite Hi.
  - intros [i Hi] Hd. by rewrite Hi, Hd.
Qed.

Lemma summary_edge_cases_witness :
  let no_ani := ClusterSummarizer.mkSummarizer
                  [CStr "Ref_name"; CStr "Query_name"] [] in
  let empty := ClusterSummarizer.mkSummarizer
                 [CStr "Ref_name"; CStr "Query_name"; CStr "ANI"] [] in
  (Polars.index_of "ANI" (ClusterSummarizer.ani_columns no_ani) = None
   /\ is_Some (Polars.index_of "ANI" (ClusterSummarizer.ani_columns empty)))
  /\ ClusterSummarizer.average_ANI_per_cluster no_ani
     = Err (ColumnNotFoundError "ANI")
  /\ ClusterSummarizer.summarize_and_save empty
     = Ok [[CStr "cluster"; CStr "avg_ANI"]].
Proof.
  intros no_ani empty.
  assert (H1 : Polars.index_of "ANI" (ClusterSummarizer.ani_columns no_ani) = None)
    by reflexivity.
  assert (H2 : is_Some (Polars.index_of "ANI" (ClusterSummarizer.ani_columns empty)))
    by (by eexists).
  split; [by split |]. split.
  - exact (proj1 (summary_edge_cases no_ani) H1).
  - exact (proj2 (proj2 (summary_edge_cases empty) H2 eq_refl)).
Defined.

(** ** Argument parsing beyond the claims *)

(** X19. Parsing the [skani] group of arguments can fail in three ways
    only: with [ValueError] naming [--min-ani] or [--min-cov], or with
    the [RuntimeError] about the missing input; and it fails only when
    the namespace has every option that is read up to the thresholds.  A
    namespace without an output directory never raises: the group is just
    absent. *)
Theorem skani_parse_args_failures (ns : Namespace.t) :
  (forall e,
     VSkaniArgs.parse_args ns = Err e ->
     (e = ValueError "--min-ani" \/ e = ValueError "--min-cov"
      \/ e = RuntimeError "One of --contigs or --vmag-dir is required.")
     /\ declares_skani_options ns
     /\ is_Some (Namespace.min_ani ns) /\ is_Some (Namespace.min_cov ns))
  /\ (Namespace.outdir ns = None -> VSkaniArgs.parse_args ns = Ok None).
Proof.
  split.
  - intros e. unfold VSkaniArgs.parse_args, declares_skani_options.
    repeat match goal with
           | |- context [getattr _ ?o] =>
               destruct o; cbn -[SkaniCli.PreprocessingArgs_init]
           end; try discriminate;
      try (destruct (SkaniCli.PreprocessingArgs_init _ _) as [p | e'] eqn:Hp;
           cbn; try discriminate).
    all: try (unfold VSkaniArgs.init; case_match; cbn; try discriminate;
              intros [= <-]; split; [by right; right | by repeat split]).
    all: unfold SkaniCli.PreprocessingArgs_init, SkaniCli.check_range in Hp;
      repeat (case_match; cbn in Hp; try discriminate);
      injection Hp as <-; cbn; intros [= <-];
      (split; [first [by left | by right; left] | by repeat split]).
  - intros Hout. unfold VSkaniArgs.parse_args. by rewrite Hout.
Qed.

Lemma skani_parse_args_failures_witness :
  let ns := Scenario.summarize_args "skani_ANI.tsv" in
  let ns' := Scenario.all_args 2 (1 # 2) in
  (Namespace.outdir ns = None
   /\ VSkaniArgs.parse_args ns' = Err (ValueError "--min-ani"))
  /\ VSkaniArgs.parse_args ns = Ok None
  /\ declares_skani_options ns'.
Proof.
  intros ns ns'.
  assert (He : VSkaniArgs.parse_args ns' = Err (ValueError "--min-ani"))
    by reflexivity.
  split; [by split |]. split.
  - exact (proj2 (skani_parse_args_failures ns) eq_refl).
  - exact (proj1 (proj2 (proj1 (skani_parse_args_failures ns') _ He))).
Defined.

(** X21. In a parsed command line that has the three groups of arguments,
    they fit together as the pipeline needs: the clustering reads the file
    the preprocessor writes, and the summary is given the table of
    [skani dist], the clusters the clustering writes and the thread count
    of the [skani] group. *)
Theorem pipeline_arguments_fit_together
    (E : externals) (ns : Namespace.t) (args : Main.Args)
    (a : VSkaniArgs.t) (m : MclArgs.t) (s : SummaryArgs.t) :
  Main.parse_args E ns = Ok args ->
  Main.skani args = Some a -> Main.mcl args = Some m ->
  Main.summary args = Some s ->
  MclArgs.input m = VSkaniArgs.processed_output (VSkaniArgs.io a)
  /\ SummaryArgs.skani_input s = VSkaniArgs.skani_output (VSkaniArgs.io a)
  /\ SummaryArgs.mcl_output s = MclArgs.output m
  /\ SummaryArgs.threads s = VSkaniArgs.threads a
  /\ MclArgs.tabfile m = with_suffix E (MclArgs.input m) ".mcxload"
  /\ MclArgs.matfile m = with_suffix E (MclArgs.input m) ".mci".
Proof.
  unfold Main.parse_args. intros Hp Ha Hm Hs.
  apply bind_Ok in Hp as (a' & Hpa & Hp).
  apply bind_Ok in Hp as (m' & Hpm & Hp).
  apply bind_Ok in Hp as (s' & Hps & [= <-]). simpl in *. subst a' m' s'.
  unfold VSkaniArgs.parse_args in Hpa.
  unfold MclArgs.parse_args in Hpm. unfold SummaryArgs.parse_args in Hps.
  destruct (Namespace.outdir ns); [| done].
  destruct (Namespace.contigs ns); [| done].
  destruct (Namespace.vmag_dir ns); [| done].
  destruct (Namespace.output ns) as [out |]; [| done].
  destruct (Namespace.output_processed ns) as [proc |]; [| done].
  destruct (Namespace.ext ns); [| done].
  destruct (Namespace.compression_factor ns); [| done].
  destruct (Namespace.marker ns); [| done].
  destruct (Namespace.screen ns); [| done].
  destruct (Namespace.min_af ns); [| done].
  destruct (Namespace.command_log ns); [| done].
  destruct (Namespace.log ns); [| done].
  destruct (Namespace.min_ani ns); [| done].
  destruct (Namespace.min_cov ns); [| done].
  cbn -[SkaniCli.PreprocessingArgs_init] in Hpa.
  destruct (SkaniCli.PreprocessingArgs_init _ _) as [p | e];
    [| by destruct e].
  cbn in Hpa. destruct (Namespace.threads ns) as [th |]; [| done].
  cbn in Hpa. unfold VSkaniArgs.init in Hpa.
  destruct (_ && _) in Hpa; [done |]. injection Hpa as <-.
  destruct (Namespace.mcl_output ns) as [mo |]; [| done].
  destruct (Namespace.inflation ns) as [inf |]; [| done].
  cbn in Hpm. injection Hpm as <-.
  destruct (Namespace.summary_output ns) as [so |]; [| done].
  cbn in Hps. injection Hps as <-. done.
Qed.

Lemma pipeline_arguments_fit_together_witness :
  let ns := Scenario.all_args Scenario.default_min_ani Scenario.default_min_cov in
  exists args a m s,
    (Main.parse_args Scenario.E ns = Ok args
     /\ Main.skani args = Some a /\ Main.mcl args = Some m
     /\ Main.summary args = Some s)
    /\ MclArgs.input m = "skani_processed.tsv"
    /\ SummaryArgs.skani_input s = "skani_ANI.tsv".
Proof.
  intros ns.
  destruct (Main.parse_args Scenario.E ns) as [args | e] eqn:Hp;
    [| vm_compute in Hp; discriminate Hp].
  destruct (Main.skani args) as [a |] eqn:Ha;
    [| vm_compute in Hp; injection Hp as <-; discriminate Ha].
  destruct (Main.mcl args) as [m |] eqn:Hm;
    [| vm_compute in Hp; injection Hp as <-; discriminate Hm].
  destruct (Main.summary args) as [s |] eqn:Hs;
    [| vm_compute in Hp; injection Hp as <-; discriminate Hs].
  exists args, a, m, s. split; [by repeat split |].
  destruct (pipeline_arguments_fit_together Scenario.E ns args a m s
              Hp Ha Hm Hs) as (H1 & H2 & _).
  split.
  - rewrite H1. vm_compute in Hp. injection Hp as <-.
    injection Ha as <-. reflexivity.
  - rewrite H2. vm_compute in Hp. injection Hp as <-.
    injection Ha as <-. reflexivity.
Defined.

(** ** The sub-commands beyond the claims *)

Lemma parse_args_no_outdir (E : externals) (ns : Namespace.t) (args : Main.Args) :
  Main.parse_args E ns = Ok args ->
  Namespace.outdir ns = None ->
  Main.skani args = None.
Proof.
  unfold Main.parse_args, VSkaniArgs.parse_args. intros H Hout.
  rewrite Hout in H. cbn in H.
  apply bind_Ok in H as (m & _ & H).
  apply bind_Ok in H as (s & _ & [= <-]). done.
Qed.

(** X22. The [mcl] sub-command cannot work: its namespace has none of the
    [skani] options, so whenever its arguments parse, [args.skani] is
    [None] and reading [args.skani.io] raises [AttributeError] before any
    program is started. *)
Theorem mcl_command_always_fails (E : externals) (ns : Namespace.t)
    (args : Main.Args) (w : world) :
  Main.parse_args E ns = Ok args ->
  Namespace.command ns = Some cmd_mcl ->
  Namespace.outdir ns = None ->
  Main.main E ns w = (Err (AttributeError "io"), w).
Proof.
  intros Hp Hcmd Hout.
  pose proof (parse_args_no_outdir E ns args Hp Hout) as Hs.
  pose proof (parse_args_command E ns args Hp) as Hc. rewrite Hcmd in Hc.
  unfold Main.main. erewrite prog_bind_Ok; [| unfold lift; by rewrite Hp].
  unfold Main.main_with. rewrite Hc, Hs. reflexivity.
Qed.

Lemma mcl_command_always_fails_witness :
  let ns := Namespace.mk (Some cmd_mcl) None None None None None None None
              None None None None None None None None
              (Some "skani_processed.tsv")
              (Some "dereplicated_virus.clusters") (Some 2%Q) None in
  let w := Scenario.start ["skani"; "mcxload"; "mcl"] in
  (is_ok (Main.parse_args Scenario.E ns) = true
   /\ Namespace.command ns = Some cmd_mcl /\ Namespace.outdir ns = None)
  /\ Main.main Scenario.E ns w = (Err (AttributeError "io"), w).
Proof.
  intros ns w.
  destruct (Main.parse_args Scenario.E ns) as [args | e] eqn:Hp;
    [| vm_compute in Hp; discriminate Hp].
  split; [by repeat split |].
  exact (mcl_command_always_fails Scenario.E ns args w Hp eq_refl eq_refl).
Defined.

(** X23. The clustering runner, on paths that the shell-like splitting of
    its command lines leaves in one piece, starts [mcxload] and then [mcl]
    and never looks at their exit status: with both installed it returns
    normally, having run exactly these two commands in this order; without
    [mcxload] it raises at once; without [mcl] it raises after [mcxload]
    has run. *)
Theorem mcl_run_outcomes (E : externals) (file tabfile matfile output : string)
    (inflation : Q) (w : world) :
  shell_word file -> shell_word tabfile -> shell_word matfile ->
  shell_word output ->
  let load := [AStr "mcxload"; AStr "-abc"; AStr file; AStr "-write-tab";
               AStr tabfile; AStr "-o"; AStr matfile] in
  let cluster := [AStr "mcl"; AStr matfile; AStr "-use-tab"; AStr tabfile;
                  AStr "-I"; ANum inflation; AStr "-o"; AStr output] in
  let run := Mcl.run E file tabfile matfile output inflation w in
  ("mcxload" ∈ on_path w -> "mcl" ∈ on_path w ->
   run.1 = Ok tt
   /\ commands run.2 = commands w ++ [load; cluster]
   /\ fs run.2 = tool E (cwd w) cluster (tool E (cwd w) load (fs w)))
  /\ ("mcxload" ∉ on_path w ->
      run = (Err (FileNotFoundError "mcxload"), w))
  /\ ("mcxload" ∈ on_path w -> "mcl" ∉ on_path w ->
      run.1 = Err (FileNotFoundError "mcl")
      /\ commands run.2 = commands w ++ [load]).
Proof.
  intros _ _ _ _ load cluster run. unfold run, Mcl.run, Mcl.mcxload, Mcl.mcl.
  unfold mbind, prog_bind, subprocess_run.
  split; [| split].
  - intros H1 H2. rewrite (bool_decide_eq_true_2 _ H1). simpl.
    rewrite (bool_decide_eq_true_2 _ H2). simpl.
    split; [done |]. split; [by rewrite <- app_assoc | done].
  - intros H1. by rewrite (bool_decide_eq_false_2 _ H1).
  - intros H1 H2. rewrite (bool_decide_eq_true_2 _ H1). simpl.
    by rewrite (bool_decide_eq_false_2 _ H2).
Qed.

Lemma mcl_run_outcomes_witness :
  let w := Scenario.start ["mcxload"; "mcl"] in
  let w' := Scenario.start ["skani"] in
  (shell_word "e.tsv" /\ shell_word "e.mcxload" /\ shell_word "e.mci"
   /\ shell_word "out"
   /\ ("mcxload" ∈ on_path w) /\ ("mcl" ∈ on_path w) /\ ("mcxload" ∉ on_path w'))
  /\ (Mcl.run Scenario.E "e.tsv" "e.mcxload" "e.mci" "out" 2 w).1 = Ok tt
  /\ Mcl.run Scenario.E "e.tsv" "e.mcxload" "e.mci" "out" 2 w'
     = (Err (FileNotFoundError "mcxload"), w').
Proof.
  intros w w'.
  assert (Hf : shell_word "e.tsv") by (split; [discriminate | reflexivity]).
  assert (Ht : shell_word "e.mcxload") by (split; [discriminate | reflexivity]).
  assert (Hm : shell_word "e.mci") by (split; [discriminate | reflexivity]).
  assert (Ho : shell_word "out") by (split; [discriminate | reflexivity]).
  assert (H1 : "mcxload" ∈ on_path w) by (apply list_elem_of_In; simpl; tauto).
  assert (H2 : "mcl" ∈ on_path w) by (apply list_elem_of_In; simpl; tauto).
  assert (H3 : "mcxload" ∉ on_path w').
  { intros Hin. apply list_elem_of_In in Hin. simpl in Hin.
    destruct Hin as [H | []]; discriminate H. }
  split; [by repeat split |]. split.
  - exact (proj1 (proj1 (mcl_run_outcomes Scenario.E "e.tsv" "e.mcxload"
                           "e.mci" "out" 2 w Hf Ht Hm Ho) H1 H2)).
  - exact (proj1 (proj2 (mcl_run_outcomes Scenario.E "e.tsv" "e.mcxload"
                           "e.mci" "out" 2 w' Hf Ht Hm Ho)) H3).
Defined.

(** X24. The [summarize] sub-command, once its arguments are parsed,
    starts no program; when it raises it has changed nothing; and when it
    returns, the table at [--input] was read, joined with the clusters at
    [--mcl-output], and the summary of that join is the one file written,
    at [--output], everything else being as before. *)
Theorem summarize_command_effects (E : externals) (ns : Namespace.t)
    (args : Main.Args) (w : world) :
  Main.parse_args E ns = Ok args ->
  Namespace.command ns = Some cmd_summarize ->
  Namespace.output_processed ns = None ->
  let run := Main.main E ns w in
  commands run.2 = commands w
  /\ (forall e, run.1 = Err e -> run.2 = w)
  /\ (run.1 = Ok tt ->
      exists input clusters_file output raw df clusters sm summary,
        Namespace.input ns = Some input
        /\ Namespace.mcl_output ns = Some clusters_file
        /\ Namespace.output ns = Some output
        /\ fs w !! joinpath (cwd w) input = Some raw
        /\ Polars.read_csv raw = Ok df
        /\ fs w !! joinpath (cwd w) clusters_file = Some clusters
        /\ ClusterSummarizer._merge_cluster_ids df
             (List.map (line_text E) clusters) 2 = Ok sm
        /\ ClusterSummarizer.summarize_and_save sm = Ok summary
        /\ fs run.2 = <[joinpath (cwd w) output := summary]> (fs w)
        /\ cwd run.2 = cwd w /\ on_path run.2 = on_path w).
Proof.
  intros Hp Hcmd Hproc run. unfold run, Main.main.
  pose proof (parse_args_command E ns args Hp) as Hc. rewrite Hcmd in Hc.
  erewrite prog_bind_Ok; [| unfold lift; by rewrite Hp].
  unfold Main.main_with. rewrite Hc.
  destruct (Main.summary args) as [s |] eqn:Hs; [| by repeat split].
  assert (Hns : Namespace.input ns = Some (SummaryArgs.skani_input s)
                /\ Namespace.mcl_output ns = Some (SummaryArgs.mcl_output s)
                /\ Namespace.output ns = Some (SummaryArgs.output s)).
  { unfold Main.parse_args in Hp.
    apply bind_Ok in Hp as (a & _ & Hp). apply bind_Ok in Hp as (m & _ & Hp).
    apply bind_Ok in Hp as (s' & Hs' & [= <-]). simpl in Hs. subst s'.
    unfold SummaryArgs.parse_args in Hs'. rewrite Hproc in Hs'.
    destruct (Namespace.input ns), (Namespace.output ns),
      (Namespace.mcl_output ns), (Namespace.threads ns);
      cbn in Hs'; try discriminate.
    by injection Hs' as <-. }
  destruct Hns as (Hin & Hmo & Hout).
  erewrite prog_bind_Ok; [| reflexivity].
  unfold Main.new_summarizer, Main.summarize_and_save.
  unfold mbind, prog_bind, open_read, lift, write_file.
  destruct (fs w !! joinpath (cwd w) (SummaryArgs.skani_input s))
    as [raw |] eqn:Hraw; [| by repeat split].
  destruct (Polars.read_csv raw) as [df |] eqn:Hdf; [| by repeat split].
  destruct (fs w !! joinpath (cwd w) (SummaryArgs.mcl_output s))
    as [cl |] eqn:Hcl; [| by repeat split].
  destruct (ClusterSummarizer._merge_cluster_ids df _ 2) as [sm |] eqn:Hsm;
    [| by repeat split].
  destruct (ClusterSummarizer.summarize_and_save sm) as [out |] eqn:Hsum;
    [| by repeat split].
  simpl. split; [done |]. split; [done |]. intros _.
  exists (SummaryArgs.skani_input s), (SummaryArgs.mcl_output s),
    (SummaryArgs.output s), raw, df, cl, sm, out.
  by repeat split.
Qed.

Lemma summarize_command_effects_witness :
  let ns := Scenario.summarize_args "skani_ANI.tsv" in
  let w := {| fs := <["/work/skani_ANI.tsv" := Scenario.skani_table]>
                      (<["/work/dereplicated_virus.clusters"
                         := Scenario.clusters_table]> ∅);
              cwd := "/work"; on_path := []; commands := [] |} in
  let run := Main.main Scenario.E ns w in
  (is_ok (Main.parse_args Scenario.E ns) = true
   /\ Namespace.command ns = Some cmd_summarize
   /\ Namespace.output_processed ns = None
   /\ run.1 = Ok tt)
  /\ commands run.2 = []
  /\ exists summary,
       ClusterSummarizer.summarize_and_save Scenario.summarizer = Ok summary
       /\ fs run.2 = <["/work/ani_per_cluster.tsv" := summary]> (fs w).
Proof.
  intros ns w run.
  assert (Hok : run.1 = Ok tt) by (vm_compute; reflexivity).
  destruct (Main.parse_args Scenario.E ns) as [args | e] eqn:Hp;
    [| vm_compute in Hp; discriminate Hp].
  split; [by repeat split |].
  destruct (summarize_command_effects Scenario.E ns args w Hp eq_refl eq_refl)
    as (Hcmds & _ & Hsucc).
  split; [exact Hcmds |].
  destruct (Hsucc Hok)
    as (input & cf & output & raw & df & cl & sm & summary
        & Hin & Hmo & Hout & Hraw & Hdf & Hcl & Hsm & Hsum & Hfs & _).
  injection Hin as <-. injection Hmo as <-. injection Hout as <-.
  vm_compute in Hraw. injection Hraw as <-.
  vm_compute in Hcl. injection Hcl as <-.
  vm_compute in Hdf. injection Hdf as <-.
  vm_compute in Hsm. injection Hsm as <-.
  exists summary. split; [| exact Hfs].
  rewrite <- Hsum. vm_compute. reflexivity.
Defined.

(** ** The concatenation on the file system *)

Lemma Forall2_lookup_other (files : gmap string table) (k d : string)
    (v : table) (ks : list string) (ts : list table) :
  (forall k', In k' ks -> k' <> k /\ k' <> d) ->
  Forall2 (fun k' t => files !! k' = Some t) ks ts ->
  Forall2 (fun k' t => delete k (<[d := v]> files) !! k' = Some t) ks ts.
Proof.
  intros Hks Hall. induction Hall as [| k' t ks ts Hk _ IH]; constructor.
  - destruct (Hks k') as [H1 H2]; [by left |].
    rewrite lookup_delete_ne by done. by rewrite lookup_insert_ne.
  - apply IH. intros k'' Hin. apply Hks. by right.
Qed.

(** X25. The loop that concatenates the result files, on the file system:
    when the results exist and are different files, none of them the
    destination, the loop returns normally; the destination then holds what
    it held followed by the first result (whole when the loop starts at
    index 0) and by the others without their first line; the results are
    removed; no other file changes and no program is started. *)
Theorem copy_files_concatenates
    (results : list string) (tables : list table) (fdst : string)
    (i : nat) (old : table) (w : world) :
  let d := joinpath (cwd w) fdst in
  let keys := List.map (joinpath (cwd w)) results in
  List.NoDup (d :: keys) ->
  fs w !! d = Some old ->
  Forall2 (fun k t => fs w !! k = Some t) keys tables ->
  exists w',
    VSkani.copy_files i results fdst w = (Ok tt, w')
    /\ fs w' !! d = Some (Concat.copy_lines i tables old)
    /\ (forall k, In k keys -> fs w' !! k = None)
    /\ (forall k, k <> d -> ~ In k keys -> fs w' !! k = fs w !! k)
    /\ commands w' = commands w /\ cwd w' = cwd w /\ on_path w' = on_path w.
Proof.
  revert tables i old w.
  induction results as [| r rs IH]; intros tables i old w d keys Hnd Hd Hall;
    subst d keys.
  - inversion Hall; subst. exists w. by repeat split.
  - simpl in Hnd, Hall.
    inversion Hall as [| k t ks ts Hk Hrest]; subst.
    apply List.NoDup_cons_iff in Hnd as [Hdk Hnd].
    apply List.NoDup_cons_iff in Hnd as [Hkks Hnd].
    assert (Hne : joinpath (cwd w) r <> joinpath (cwd w) fdst)
      by (intros Heq; apply Hdk; left; by symmetry).
    set (kept := if negb (Nat.eqb i 0) then tail t else t).
    set (w1 := {| fs := delete (joinpath (cwd w) r)
                          (<[joinpath (cwd w) fdst := old ++ kept]> (fs w));
                  cwd := cwd w; on_path := on_path w;
                  commands := commands w |}).
    assert (Hstep : VSkani.copy_files i (r :: rs) fdst w
                    = VSkani.copy_files (S i) rs fdst w1).
    { simpl. unfold mbind, prog_bind, open_read, append_file, remove.
      rewrite Hk. simpl. unfold table in *. rewrite Hd. simpl. fold kept.
      rewrite lookup_insert_ne by done. rewrite Hk. reflexivity. }
    destruct (IH ts (S i) (old ++ kept) w1)
      as (w' & Hrun & Hdst & Hgone & Hsame & Hc & Hw & Hp).
    + simpl. constructor; [| done]. intros Hin. apply Hdk. by right.
    + simpl. rewrite lookup_delete_ne by done. by rewrite lookup_insert_eq.
    + simpl. apply Forall2_lookup_other; [| done].
      intros k' Hin. split; intros ->; [by apply Hkks |].
      apply Hdk. by right.
    + exists w'. rewrite Hstep. simpl in *.
      split; [exact Hrun |]. split; [exact Hdst |].
      split; [| split; [| by repeat split]].
      * intros k' [<- | Hin]; [| by apply Hgone].
        rewrite Hsame by done. apply lookup_delete_eq.
      * intros k' Hkd Hnin. rewrite Hsame; [| done | tauto].
        rewrite lookup_delete_ne by tauto. by rewrite lookup_insert_ne.
Qed.

Lemma copy_files_concatenates_witness :
  let t1 := [[CStr "h"]; [CStr "a"]] in
  let t2 := [[CStr "h"]; [CStr "b"]] in
  let w := mkWorld (<["/o" := []]> (<["/r1" := t1]> (<["/r2" := t2]> ∅)))
             "/" [] [] in
  (List.NoDup ["/o"; "/r1"; "/r2"]
   /\ fs w !! "/o" = Some []
   /\ Forall2 (fun k t => fs w !! k = Some t) ["/r1"; "/r2"] [t1; t2])
  /\ exists w',
       VSkani.copy_files 0 ["/r1"; "/r2"] "/o" w = (Ok tt, w')
       /\ fs w' !! "/o" = Some [[CStr "h"]; [CStr "a"]; [CStr "b"]]
       /\ fs w' !! "/r1" = None.
Proof.
  intros t1 t2 w.
  assert (Hnd : List.NoDup ["/o"; "/r1"; "/r2"]).
  { repeat constructor; simpl; intros H;
      repeat (destruct H as [H | H]; [discriminate H |]); exact H. }
  assert (Hd : fs w !! "/o" = Some []) by (vm_compute; reflexivity).
  assert (Hall : Forall2 (fun k t => fs w !! k = Some t) ["/r1"; "/r2"] [t1; t2]).
  { repeat constructor; vm_compute; reflexivity. }
  split; [by repeat split |].
  destruct (copy_files_concatenates ["/r1"; "/r2"] [t1; t2] "/o" 0 [] w
              Hnd Hd Hall) as (w' & Hrun & Hdst & Hgone & _).
  exists w'. split; [exact Hrun |]. split; [exact Hdst |].
  apply Hgone. left. reflexivity.
Defined.
